(** * Patient-vitals streaming pipeline: validator and load generator

    A shallow embedding of [dataflow/streamingpipeline.py] (the Beam
    [ParseAndValidate] DoFn and the start-up check of the pipeline) and of
    [simulator1/patient_vitals.py] (the error injector and the start-up
    validation of the generator), with the Python built-ins they call
    ([bytes.decode], [json.loads], [int], [float], [in], subscripting). *)

From Stdlib Require Import ZArith NArith Ascii String List Bool Lia.
From Stdlib Require Import Strings.Byte Floats.SpecFloat.
From stdpp Require Import base option strings pretty gmap list.

Set Warnings "-register-all".

Local Open Scope string_scope.
Local Open Scope Z_scope.

(** ** Exceptions and results *)

Module Py.

(** A piece of a message: literal text, or the [repr] of a str that an
    f-string puts in with [{val!r}]. *)
Inductive fragment : Type :=
| Lit (s : string)
| Repr (s : string).

(** The exception classes the modelled code can raise.  [SystemExit] and
    [KeyboardInterrupt] derive from [BaseException] only; every other class
    derives from [Exception]. *)
Inductive exn : Type :=
| UnicodeDecodeError
| JSONDecodeError
| TypeError
| ValueError
| OverflowError
| KeyError
| IndexError
| RecursionError
| StopIteration
| KeyboardInterrupt
| SystemExit (msg : list fragment).

Definition is_Exception (e : exn) : bool :=
  match e with
  | SystemExit _ | KeyboardInterrupt => false
  | _ => true
  end.

(** The outcome of running a piece of Python code. *)
Inductive result (A : Type) : Type :=
| Ok (a : A)
| Raise (e : exn).
Arguments Ok {A} a.
Arguments Raise {A} e.

(** What the modelled calls depend on in the interpreter that runs them.
    [recursion_room] is the number of calls by which the stack may still
    grow when the scanner of [json.loads] starts: the recursion limit less
    the depth of the stack there.  [int_max_str_digits] is
    [sys.get_int_max_str_digits()]: 4300 unless it is set otherwise, and 0
    when the limit is switched off (or the interpreter has none). *)
Class Interpreter : Type := {
  recursion_room : nat;
  int_max_str_digits : N
}.

Definition bind {A B : Type} (m : result A) (k : A -> result B) : result B :=
  match m with
  | Ok a => k a
  | Raise e => Raise e
  end.

(** [try: body / except Exception: handler]. *)
Definition try_except_Exception {A : Type} (body : result A) (handler : result A)
  : result A :=
  match body with
  | Ok a => Ok a
  | Raise e => if is_Exception e then handler else Raise e
  end.

(** [try: body / except ValueError as e: handler]; [JSONDecodeError] and
    [UnicodeDecodeError] are subclasses of [ValueError]. *)
Definition is_ValueError (e : exn) : bool :=
  match e with
  | ValueError | JSONDecodeError | UnicodeDecodeError => true
  | _ => false
  end.

Definition try_except_ValueError {A : Type} (body : result A) (handler : result A)
  : result A :=
  match body with
  | Ok a => Ok a
  | Raise e => if is_ValueError e then handler else Raise e
  end.

End Py.
Export Py.

#[global] Instance result_ret : MRet result := @Ok.
#[global] Instance result_bind : MBind result := fun A B k m => Py.bind m k.
#[global] Instance result_fmap : FMap result :=
  fun A B f m => Py.bind m (fun a => Ok (f a)).

(** ** Python values

    What [json.loads] can return, which is also all the validator ever
    handles.  A [str] is represented by its UTF-8 encoding (a lone surrogate,
    which a str can hold after a [\uXXXX] escape, by the three bytes the same
    scheme gives it); an [int] is unbounded; a [float] is an IEEE-754
    binary64 number; a [dict] has [str] keys. *)
Inductive pyval : Type :=
| PyNone
| PyBool (b : bool)
| PyInt (z : Z)
| PyFloat (f : spec_float)
| PyStr (s : string)
| PyList (l : list pyval)
| PyDict (d : gmap string pyval).

Abbreviation pydict := (gmap string pyval).


(** ** Floating-point numbers

    Python's [float] is the platform's binary64.  The data type and the
    rounding functions are the Standard Library's [SpecFloat]; comparison and
    truncation are defined on the exact value [m * 2^e] a number denotes. *)

Module Float.

Definition prec : Z := 53.
Definition emax : Z := 1024.

(** The exact value of a float that is not a NaN: an infinity, or
    [XFin m e], which stands for [m * 2^e]. *)
Inductive xreal : Type :=
| XNegInf
| XFin (m e : Z)
| XPosInf.

Definition value (f : spec_float) : option xreal :=
  match f with
  | S754_nan => None
  | S754_infinity s => Some (if s then XNegInf else XPosInf)
  | S754_zero _ => Some (XFin 0 0)
  | S754_finite s m e => Some (XFin (cond_Zopp s (Zpos m)) e)
  end.

(** Exact comparison of [m1 * 2^e1] with [m2 * 2^e2]: both mantissas are
    brought to the smaller exponent. *)
Definition xcompare (x y : xreal) : comparison :=
  match x, y with
  | XNegInf, XNegInf => Eq
  | XNegInf, _ => Lt
  | _, XNegInf => Gt
  | XPosInf, XPosInf => Eq
  | XPosInf, _ => Gt
  | _, XPosInf => Lt
  | XFin m1 e1, XFin m2 e2 =>
      let e := Z.min e1 e2 in
      Z.compare (m1 * 2 ^ (e1 - e)) (m2 * 2 ^ (e2 - e))
  end.

Definition xle (x y : xreal) : bool :=
  match xcompare x y with
  | Gt => false
  | _ => true
  end.

(** [x <= y] on floats: false as soon as one side is a NaN. *)
Definition le (x y : spec_float) : bool :=
  match value x, value y with
  | Some a, Some b => xle a b
  | _, _ => false
  end.


(** [float(z)] for an [int] z: rounded to nearest, ties to even; an int too
    large for a binary64 raises [OverflowError]. *)
Definition of_int (z : Z) : result spec_float :=
  match binary_normalize prec emax z 0 false with
  | S754_infinity _ => Raise OverflowError
  | f => Ok f
  end.

(** The binary64 nearest to [(-1)^s * m * 10^e] (ties to even), as the
    correctly rounded string conversion of CPython gives it; overflow gives
    an infinity. *)
Definition of_decimal (s : bool) (m : N) (e : Z) : spec_float :=
  match m with
  | N0 => S754_zero s
  | Npos p =>
      if 0 <=? e then
        match 10 ^ e with
        | Zpos q => binary_round prec emax s (p * q) 0
        | _ => S754_nan
        end
      else
        let '(q, e', l) := SFdiv_core_binary prec emax (Zpos p) 0 (10 ^ (- e)) 0 in
        binary_round_aux prec emax s q e' l
  end.

(** [int(f)] for a [float] f: truncation towards zero; [ValueError] on a
    NaN, [OverflowError] on an infinity. *)
Definition trunc (f : spec_float) : result Z :=
  match f with
  | S754_nan => Raise ValueError
  | S754_infinity _ => Raise OverflowError
  | S754_zero _ => Ok 0
  | S754_finite s m e =>
      Ok (cond_Zopp s (if 0 <=? e then Zpos m * 2 ^ e else Zpos m / 2 ^ (- e)))
  end.

End Float.

(** ** UTF-8 *)

Module Utf8.

Definition cont (b : N) : bool := ((128 <=? b) && (b <=? 191))%N.

(** The code points a byte sequence encodes, or [None] when it is not
    well-formed UTF-8 (overlong forms and values above U+10FFFF are
    refused).  With [strict] the surrogates U+D800..U+DFFF are refused too,
    as [bytes.decode("utf-8")] does; without it they are read, which is how
    a [str] holding a lone surrogate is represented. *)
Fixpoint points (strict : bool) (bs : list N) : option (list N) :=
  match bs with
  | [] => Some []
  | b0 :: r0 =>
      if (b0 <? 128)%N then cons b0 <$> points strict r0
      else if ((194 <=? b0) && (b0 <=? 223))%N then
        match r0 with
        | b1 :: r1 =>
            if cont b1
            then cons ((b0 - 192) * 64 + (b1 - 128))%N <$> points strict r1
            else None
        | _ => None
        end
      else if ((224 <=? b0) && (b0 <=? 239))%N then
        match r0 with
        | b1 :: b2 :: r2 =>
            if cont b1 && cont b2
               && (negb (b0 =? 224)%N || (160 <=? b1)%N)
               && (negb strict || negb (b0 =? 237)%N || (b1 <=? 159)%N)
            then cons ((b0 - 224) * 4096 + (b1 - 128) * 64 + (b2 - 128))%N
                   <$> points strict r2
            else None
        | _ => None
        end
      else if ((240 <=? b0) && (b0 <=? 244))%N then
        match r0 with
        | b1 :: b2 :: b3 :: r3 =>
            if cont b1 && cont b2 && cont b3
               && (negb (b0 =? 240)%N || (144 <=? b1)%N)
               && (negb (b0 =? 244)%N || (b1 <=? 143)%N)
            then cons ((b0 - 240) * 262144 + (b1 - 128) * 4096
                       + (b2 - 128) * 64 + (b3 - 128))%N
                   <$> points strict r3
            else None
        | _ => None
        end
      else None
  end.

(** [message_bytes.decode("utf-8")]. *)
Definition decode (bs : list Byte.byte) : result string :=
  match points true (map Byte.to_N bs) with
  | Some _ => Ok (string_of_list_byte bs)
  | None => Raise UnicodeDecodeError
  end.

(** [chr(cp)] in the representation of a str. *)
Definition encode_point (cp : N) : string :=
  string_of_list_ascii (map ascii_of_N (
    if (cp <? 128)%N then [cp]
    else if (cp <? 2048)%N then [192 + cp / 64; 128 + cp mod 64]
    else if (cp <? 65536)%N then
      [224 + cp / 4096; 128 + (cp / 64) mod 64; 128 + cp mod 64]
    else
      [240 + cp / 262144; 128 + (cp / 4096) mod 64;
       128 + (cp / 64) mod 64; 128 + cp mod 64])%N).

(** The code points of a str. *)
Definition code_points (s : string) : option (list N) :=
  points false (map N_of_ascii (list_ascii_of_string s)).

End Utf8.

(** ** [int(str)] and [float(str)] *)

Module Text.

(** [Py_UNICODE_ISSPACE] above U+007F. *)
Definition unicode_spaces : list N :=
  [133; 160; 5760; 8192; 8193; 8194; 8195; 8196; 8197; 8198; 8199; 8200;
   8201; 8202; 8232; 8233; 8239; 8287; 12288]%N.

(** The digit zero of every run of decimal digits above U+007F (Unicode
    14.0, general category Nd); the nine code points after each are its
    digits one to nine. *)
Definition decimal_zeros : list N :=
  [1632; 1776; 1984; 2406; 2534; 2662; 2790; 2918; 3046; 3174; 3302; 3430;
   3558; 3664; 3792; 3872; 4160; 4240; 6112; 6160; 6470; 6608; 6784; 6800;
   6992; 7088; 7232; 7248; 42528; 43216; 43264; 43472; 43504; 43600; 44016;
   65296; 66720; 68912; 69734; 69872; 69942; 70096; 70384; 70736; 70864;
   71248; 71360; 71472; 71904; 72016; 72784; 73040; 73120; 92768; 92864;
   93008; 120782; 120792; 120802; 120812; 120822; 123200; 123632; 125264;
   130032]%N.

(** [Py_UNICODE_TODECIMAL]. *)
Definition to_decimal (cp : N) : option N :=
  (fun z => cp - z)%N
    <$> List.find (fun z => (z <=? cp) && (cp <? z + 10))%N decimal_zeros.

(** One character of [_PyUnicode_TransformDecimalAndSpaceToASCII]: below
    U+007F unchanged, a space character to a blank, a decimal digit to its
    ASCII digit, anything else refused. *)
Definition to_ascii (cp : N) : option ascii :=
  if (cp <? 127)%N then Some (ascii_of_N cp)
  else if existsb (N.eqb cp) unicode_spaces then Some " "%char
  else (fun d => ascii_of_N (48 + d)) <$> to_decimal cp.

Definition transform (s : string) : option (list ascii) :=
  cps ← Utf8.code_points s; mapM to_ascii cps.

(** [Py_ISSPACE]: blank, tab, line feed, vertical tab, form feed, carriage
    return. *)
Definition is_space (c : ascii) : bool :=
  let n := N_of_ascii c in ((n =? 32) || ((9 <=? n) && (n <=? 13)))%N.

Definition digit_of (c : ascii) : option N :=
  let n := N_of_ascii c in
  if ((48 <=? n) && (n <=? 57))%N then Some (n - 48)%N else None.

Fixpoint skip_spaces (l : list ascii) : list ascii :=
  match l with
  | c :: r => if is_space c then skip_spaces r else l
  | [] => []
  end.

Definition sign (l : list ascii) : bool * list ascii :=
  match l with
  | "-"%char :: r => (true, r)
  | "+"%char :: r => (false, r)
  | _ => (false, l)
  end.

(** The rest of a run of digits, after a digit: digits, each preceded by at
    most one underscore.  [acc] is the number read so far and [n] the count
    of its digits; an underscore that no digit follows is an error. *)
Fixpoint digits_rest (acc : N) (n : nat) (l : list ascii)
  : option (N * nat * list ascii) :=
  match l with
  | "_"%char :: r =>
      match r with
      | d :: r' =>
          match digit_of d with
          | Some v => digits_rest (10 * acc + v)%N (S n) r'
          | None => None
          end
      | [] => None
      end
  | d :: r =>
      match digit_of d with
      | Some v => digits_rest (10 * acc + v)%N (S n) r
      | None => Some (acc, n, l)
      end
  | [] => Some (acc, n, [])
  end.

(** A run of digits continuing the number [acc]; the run may be empty (then
    [n] is unchanged), but cannot start with an underscore. *)
Definition digits (acc : N) (l : list ascii) : option (N * nat * list ascii) :=
  match l with
  | d :: r =>
      match digit_of d with
      | Some v => digits_rest (10 * acc + v)%N 1 r
      | None => Some (acc, O, l)
      end
  | [] => Some (acc, O, [])
  end.

(** The limit [PyLong_FromString] puts on a decimal numeral of [n] digits
    (underscores not counted, leading zeros counted): above 640 digits the
    count is tested against [int_max_str_digits], when that is not zero. *)
Definition too_many_digits {py : Interpreter} (n : nat) : bool :=
  ((640 <? N.of_nat n) && (0 <? int_max_str_digits)
   && (int_max_str_digits <? N.of_nat n))%N.

(** [int(s)] for a str s (base 10): blanks, a sign, digits with single
    underscores between them, blanks; [ValueError] for anything else, and
    for a numeral of too many digits. *)
Definition int_of_str {py : Interpreter} (s : string) : result Z :=
  match transform s with
  | None => Raise ValueError
  | Some l =>
      let '(neg, l) := sign (skip_spaces l) in
      match digits 0 l with
      | Some (v, S n, r) =>
          if too_many_digits (S n) then Raise ValueError
          else
            match skip_spaces r with
            | [] => Ok (cond_Zopp neg (Z.of_N v))
            | _ => Raise ValueError
            end
      | _ => Raise ValueError
      end
  end.

Definition lower (c : ascii) : ascii :=
  let n := N_of_ascii c in
  if ((65 <=? n) && (n <=? 90))%N then ascii_of_N (n + 32) else c.

(** The optional exponent of a decimal literal: [e] or [E], a sign, a run of
    digits.  When what follows [e] is no exponent, none is read. *)
Definition exponent (l : list ascii) : option (Z * list ascii) :=
  match l with
  | c :: r =>
      if Ascii.eqb (lower c) "e" then
        let '(neg, r') :=
          match r with
          | "-"%char :: r' => (true, r')
          | "+"%char :: r' => (false, r')
          | _ => (false, r)
          end in
        match digits 0 r' with
        | Some (v, S _, rest) => Some (cond_Zopp neg (Z.of_N v), rest)
        | Some (_, O, _) => Some (0, l)
        | None => None
        end
      else Some (0, l)
  | [] => Some (0, [])
  end.

(** A decimal literal: digits, an optional point and digits (one digit at
    least on either side of the point), an optional exponent. *)
Definition decimal (neg : bool) (l : list ascii) : option (spec_float * list ascii) :=
  '(i, ni, r) ← digits 0 l;
  '(m, nf, r) ←
    match r with
    | "."%char :: r' =>
        '(m, nf, r'') ← digits i r';
        Some (m, nf, r'')
    | _ => Some (i, O, r)
    end;
  match ni, nf with
  | O, O => None
  | _, _ =>
      '(e, r) ← exponent r;
      Some (Float.of_decimal neg m (e - Z.of_nat nf), r)
  end.

(** [inf], [infinity] and [nan], in any case. *)
Definition inf_or_nan (neg : bool) (l : list ascii) : option (spec_float * list ascii) :=
  match map lower l with
  | "i" :: "n" :: "f" :: "i" :: "n" :: "i" :: "t" :: "y" :: _ =>
      Some (S754_infinity neg, drop 8 l)
  | "i" :: "n" :: "f" :: _ => Some (S754_infinity neg, drop 3 l)
  | "n" :: "a" :: "n" :: _ => Some (S754_nan, drop 3 l)
  | _ => None
  end%char.

(** [float(s)] for a str s. *)
Definition float_of_str (s : string) : result spec_float :=
  match transform s with
  | None => Raise ValueError
  | Some l =>
      let '(neg, l) := sign (skip_spaces l) in
      match (match inf_or_nan neg l with
             | Some x => Some x
             | None => decimal neg l
             end) with
      | Some (f, r) =>
          match skip_spaces r with
          | [] => Ok f
          | _ => Raise ValueError
          end
      | None => Raise ValueError
      end
  end.

End Text.

(** ** [json.loads]

    The default decoder of the [json] module (its C scanner): strict
    strings, [NaN], [Infinity] and [-Infinity] accepted, [dict] for
    objects with the last of several equal keys kept; an integer literal
    is read by [int], with its limit on the digits, and every array and
    object entered is a call counted against the recursion limit. *)

Module Json.

Definition is_ws (c : ascii) : bool :=
  let n := N_of_ascii c in ((n =? 32) || (n =? 9) || (n =? 10) || (n =? 13))%N.

Fixpoint skip_ws (s : string) : string :=
  match s with
  | String c r => if is_ws c then skip_ws r else s
  | EmptyString => EmptyString
  end.

Definition is_digit (c : ascii) : bool :=
  let n := N_of_ascii c in ((48 <=? n) && (n <=? 57))%N.

Definition hex_of (c : ascii) : option N :=
  let n := N_of_ascii c in
  if ((48 <=? n) && (n <=? 57))%N then Some (n - 48)%N
  else if ((97 <=? n) && (n <=? 102))%N then Some (n - 87)%N
  else if ((65 <=? n) && (n <=? 70))%N then Some (n - 55)%N
  else None.

Definition hex4 (a b c d : ascii) : option N :=
  x ← hex_of a; y ← hex_of b; z ← hex_of c; w ← hex_of d;
  Some (x * 4096 + y * 256 + z * 16 + w)%N.

(** The [BACKSLASH] table of the decoder. *)
Definition backslash (c : ascii) : option ascii :=
  let n := N_of_ascii c in
  if (n =? 34)%N then Some c                      (* quote *)
  else if (n =? 92)%N then Some c                 (* backslash *)
  else if (n =? 47)%N then Some c                 (* slash *)
  else if (n =? 98)%N then Some (ascii_of_N 8)    (* b: backspace *)
  else if (n =? 102)%N then Some (ascii_of_N 12)  (* f: form feed *)
  else if (n =? 110)%N then Some (ascii_of_N 10)  (* n: line feed *)
  else if (n =? 114)%N then Some (ascii_of_N 13)  (* r: carriage return *)
  else if (n =? 116)%N then Some (ascii_of_N 9)   (* t: tab *)
  else None.

Definition is_high_surrogate (cp : N) : bool := ((55296 <=? cp) && (cp <=? 56319))%N.
Definition is_low_surrogate (cp : N) : bool := ((56320 <=? cp) && (cp <=? 57343))%N.
Definition join_surrogates (hi lo : N) : N :=
  (65536 + (hi - 55296) * 1024 + (lo - 56320))%N.

(** What the scanner raises where it refuses the text, with [room] calls
    left: [JSONDecodeError] is a class written in Python, and making one
    takes three calls (the class, its [__init__], [ValueError.__init__]);
    with less room [RecursionError] is raised in its place. *)
Definition decode_error (room : nat) : exn :=
  if (room <? 3)%nat then RecursionError else JSONDecodeError.

(** [scanstring(s, end, strict=True)]: [s] starts after the opening quote;
    the result is the decoded str and the text after the closing quote. *)
Fixpoint scanstring (room : nat) (s : string) : result (string * string) :=
  match s with
  | EmptyString => Raise (decode_error room)
  | String c r =>
      if (N_of_ascii c =? 34)%N then Ok (EmptyString, r)
      else if (N_of_ascii c =? 92)%N then
        match r with
        | EmptyString => Raise (decode_error room)
        | String e r1 =>
            if (N_of_ascii e =? 117)%N then
              match r1 with
              | String h1 (String h2 (String h3 (String h4 r2))) =>
                  match hex4 h1 h2 h3 h4 with
                  | None => Raise (decode_error room)
                  | Some cp =>
                      match r2 with
                      | String b (String u (String g1 (String g2 (String g3 (String g4 r3))))) =>
                          match
                            (if is_high_surrogate cp
                                && (N_of_ascii b =? 92)%N && (N_of_ascii u =? 117)%N
                             then hex4 g1 g2 g3 g4 else None)
                          with
                          | Some cp2 =>
                              if is_low_surrogate cp2 then
                                '(t, rest) ← scanstring room r3;
                                Ok (Utf8.encode_point (join_surrogates cp cp2) ++ t, rest)%string
                              else
                                '(t, rest) ← scanstring room r2;
                                Ok (Utf8.encode_point cp ++ t, rest)%string
                          | None =>
                              '(t, rest) ← scanstring room r2;
                              Ok (Utf8.encode_point cp ++ t, rest)%string
                          end
                      | _ =>
                          '(t, rest) ← scanstring room r2;
                          Ok (Utf8.encode_point cp ++ t, rest)%string
                      end
                  end
              | _ => Raise (decode_error room)
              end
            else
              match backslash e with
              | Some ch => '(t, rest) ← scanstring room r1; Ok (String ch t, rest)
              | None => Raise (decode_error room)
              end
        end
      else if (N_of_ascii c <? 32)%N then Raise (decode_error room)
      else '(t, rest) ← scanstring room r; Ok (String c t, rest)
  end.

(** The longest prefix of digits, and what follows it. *)
Fixpoint span_digits (s : string) : string * string :=
  match s with
  | String c r =>
      if is_digit c then let '(d, rest) := span_digits r in (String c d, rest)
      else (EmptyString, s)
  | EmptyString => (EmptyString, EmptyString)
  end.

(** The integer part of [NUMBER_RE]: an optional minus, then [0] or a
    digit from 1 to 9 followed by digits. *)
Definition match_integer (s : string) : option (string * string) :=
  let '(minus, s1) :=
    match s with
    | String c r => if (N_of_ascii c =? 45)%N then (String c EmptyString, r) else (EmptyString, s)
    | EmptyString => (EmptyString, s)
    end in
  match s1 with
  | String c r =>
      if (N_of_ascii c =? 48)%N then Some (minus ++ String c EmptyString, r)%string
      else if is_digit c then
        let '(d, rest) := span_digits r in Some (minus ++ String c d, rest)%string
      else None
  | EmptyString => None
  end.

(** The optional fraction of [NUMBER_RE]: a point and one digit at least. *)
Definition match_frac (s : string) : string * string :=
  match s with
  | String c r =>
      if (N_of_ascii c =? 46)%N then
        match span_digits r with
        | (EmptyString, _) => (EmptyString, s)
        | (d, rest) => (String c d, rest)
        end
      else (EmptyString, s)
  | EmptyString => (EmptyString, s)
  end.

(** The optional exponent of [NUMBER_RE]: [e] or [E], an optional sign and
    one digit at least. *)
Definition match_exp (s : string) : string * string :=
  match s with
  | String c r =>
      if ((N_of_ascii c =? 101) || (N_of_ascii c =? 69))%N then
        let '(sg, r1) :=
          match r with
          | String g r' =>
              if ((N_of_ascii g =? 45) || (N_of_ascii g =? 43))%N
              then (String g EmptyString, r') else (EmptyString, r)
          | EmptyString => (EmptyString, r)
          end in
        match span_digits r1 with
        | (EmptyString, _) => (EmptyString, s)
        | (d, rest) => (String c (sg ++ d), rest)
        end
      else (EmptyString, s)
  | EmptyString => (EmptyString, s)
  end.

(** A number: [int(integer)] when there is neither fraction nor exponent,
    [float(integer + frac + exp)] otherwise. *)
Definition match_number {py : Interpreter} (s : string)
  : option (result pyval * string) :=
  '(integer, r) ← match_integer s;
  let '(frac, r) := match_frac r in
  let '(exp, r) := match_exp r in
  match frac, exp with
  | EmptyString, EmptyString => Some (PyInt <$> Text.int_of_str integer, r)
  | _, _ => Some (PyFloat <$> Text.float_of_str (integer ++ frac ++ exp), r)
  end.

(** [s[idx:idx + len(lit)] == lit], with what follows. *)
Fixpoint literal (lit s : string) : option string :=
  match lit, s with
  | EmptyString, _ => Some s
  | String a lit', String b s' => if Ascii.eqb a b then literal lit' s' else None
  | String _ _, EmptyString => None
  end.

(** The constants of the scanner, in the order it tries them once no number
    matched.  Where no value starts, the scanner raises [StopIteration]. *)
Definition constant (s : string) : result (pyval * string) :=
  match literal "NaN" s with
  | Some r => Ok (PyFloat S754_nan, r)
  | None =>
      match literal "Infinity" s with
      | Some r => Ok (PyFloat (S754_infinity false), r)
      | None =>
          match literal "-Infinity" s with
          | Some r => Ok (PyFloat (S754_infinity true), r)
          | None => Raise StopIteration
          end
      end
  end.

(** [scan_once], [JSONArray] and [JSONObject].  [room] is the number of
    calls the recursion limit still allows: entering an object or an array
    takes one ([Py_EnterRecursiveCall]), and [RecursionError] is raised when
    none is left.  [array_items] starts at an element, [object_items] after
    the opening quote of a key, and both carry what was read so far.

    [fuel] is what the recursion is defined on.  Every call of the three
    functions follows the reading of a character, at most two per
    character, so that [2 * length s + 2] is enough for the text [s], and
    no more changes the outcome ([scan_once_fuel] below); with less, the
    outcome is given as [RecursionError] too. *)
Fixpoint scan_once {py : Interpreter} (fuel room : nat) (s : string) {struct fuel}
  : result (pyval * string) :=
  match fuel with
  | O => Raise RecursionError
  | S fuel =>
      match s with
      | EmptyString => Raise StopIteration
      | String c r =>
          if (N_of_ascii c =? 34)%N then
            '(t, rest) ← scanstring room r; Ok (PyStr t, rest)
          else if (N_of_ascii c =? 123)%N then
            match room with
            | O => Raise RecursionError
            | S room =>
                match skip_ws r with
                | String c' r' =>
                    if (N_of_ascii c' =? 125)%N then Ok (PyDict ∅, r')
                    else if (N_of_ascii c' =? 34)%N then object_items fuel room ∅ r'
                    else Raise (decode_error room)
                | EmptyString => Raise (decode_error room)
                end
            end
          else if (N_of_ascii c =? 91)%N then
            match room with
            | O => Raise RecursionError
            | S room =>
                match skip_ws r with
                | String c' r' =>
                    if (N_of_ascii c' =? 93)%N then Ok (PyList [], r')
                    else array_items fuel room [] (String c' r')
                | EmptyString => Raise StopIteration
                end
            end
          else
            match literal "null" s with
            | Some rest => Ok (PyNone, rest)
            | None =>
            match literal "true" s with
            | Some rest => Ok (PyBool true, rest)
            | None =>
            match literal "false" s with
            | Some rest => Ok (PyBool false, rest)
            | None =>
            match match_number s with
            | Some (res, rest) => v ← res; Ok (v, rest)
            | None => constant s
            end end end end
      end
  end
with array_items {py : Interpreter} (fuel room : nat) (acc : list pyval) (s : string)
    {struct fuel} : result (pyval * string) :=
  match fuel with
  | O => Raise RecursionError
  | S fuel =>
      '(v, r) ← scan_once fuel room s;
      match skip_ws r with
      | String c r' =>
          if (N_of_ascii c =? 93)%N then Ok (PyList (acc ++ [v]), r')
          else if (N_of_ascii c =? 44)%N
          then array_items fuel room (acc ++ [v]) (skip_ws r')
          else Raise (decode_error room)
      | EmptyString => Raise (decode_error room)
      end
  end
with object_items {py : Interpreter} (fuel room : nat) (acc : pydict) (s : string)
    {struct fuel} : result (pyval * string) :=
  match fuel with
  | O => Raise RecursionError
  | S fuel =>
      '(key, r) ← scanstring room s;
      match skip_ws r with
      | String c r' =>
          if (N_of_ascii c =? 58)%N then
            '(v, r) ← scan_once fuel room (skip_ws r');
            match skip_ws r with
            | String c r' =>
                if (N_of_ascii c =? 125)%N then Ok (PyDict (<[key:=v]> acc), r')
                else if (N_of_ascii c =? 44)%N then
                  match skip_ws r' with
                  | String q r'' =>
                      if (N_of_ascii q =? 34)%N
                      then object_items fuel room (<[key:=v]> acc) r''
                      else Raise (decode_error room)
                  | EmptyString => Raise (decode_error room)
                  end
                else Raise (decode_error room)
            | EmptyString => Raise (decode_error room)
            end
          else Raise (decode_error room)
      | EmptyString => Raise (decode_error room)
      end
  end.

(** [raw_decode(s, idx)]: the scanner is called on the text from [idx],
    and its [StopIteration] is turned into a [JSONDecodeError], one call
    above the scanner. *)
Definition raw_decode {py : Interpreter} (s from_idx : string) : result (pyval * string) :=
  match scan_once (2 * String.length s + 2) recursion_room from_idx with
  | Raise StopIteration => Raise (decode_error (recursion_room + 1))
  | r => r
  end.

(** [decode(s)]: blanks may surround the one value; anything after it is an
    error, raised two calls above the scanner. *)
Definition decode {py : Interpreter} (s : string) : result pyval :=
  '(v, r) ← raw_decode s (skip_ws s);
  match skip_ws r with
  | EmptyString => Ok v
  | _ => Raise (decode_error (recursion_room + 2))
  end.

(** [json.loads(s)] for a str [s]: a byte-order mark is refused, three
    calls above the scanner, where there is room for the exception. *)
Definition loads {py : Interpreter} (s : string) : result pyval :=
  match literal (Utf8.encode_point 65279) s with
  | Some _ => Raise JSONDecodeError
  | None => decode s
  end.

End Json.

(** ** Built-in operations on values *)

Module Builtins.

(** [k == x] for a str [k]: a value that is not a str is never equal to it. *)
Definition eq_str (k : string) (x : pyval) : bool :=
  match x with
  | PyStr s => String.eqb k s
  | _ => false
  end.

(** [k] occurs in [s] as a substring. *)
Fixpoint is_infix (k s : string) : bool :=
  String.prefix k s ||
  match s with
  | String _ r => is_infix k r
  | EmptyString => false
  end.

(** [k in obj] for a str [k]: key membership in a dict, element membership
    in a list, substring test in a str; [TypeError] on a value that is not
    a container. *)
Definition contains (k : string) (obj : pyval) : result bool :=
  match obj with
  | PyDict d => Ok (bool_decide (is_Some (d !! k)))
  | PyList l => Ok (existsb (eq_str k) l)
  | PyStr s => Ok (is_infix k s)
  | PyNone | PyBool _ | PyInt _ | PyFloat _ => Raise TypeError
  end.

(** [obj[k]] for a str [k]: the value of the key in a dict ([KeyError] when
    it is absent); [TypeError] otherwise (a list or a str is indexed by
    integers, the other values not at all). *)
Definition getitem (obj : pyval) (k : string) : result pyval :=
  match obj with
  | PyDict d =>
      match d !! k with
      | Some v => Ok v
      | None => Raise KeyError
      end
  | _ => Raise TypeError
  end.

(** [int(v)]. *)
Definition int {py : Interpreter} (v : pyval) : result Z :=
  match v with
  | PyInt z => Ok z
  | PyBool b => Ok (if b then 1 else 0)
  | PyFloat f => Float.trunc f
  | PyStr s => Text.int_of_str s
  | PyNone | PyList _ | PyDict _ => Raise TypeError
  end.

(** [float(v)]. *)
Definition float (v : pyval) : result spec_float :=
  match v with
  | PyFloat f => Ok f
  | PyInt z => Float.of_int z
  | PyBool b => Float.of_int (if b then 1 else 0)
  | PyStr s => Text.float_of_str s
  | PyNone | PyList _ | PyDict _ => Raise TypeError
  end.

(** [bool(s)] for a str: the empty str is false. *)
Definition truthy (s : string) : bool :=
  match s with
  | EmptyString => false
  | String _ _ => true
  end.

End Builtins.

(** ** The process environment and the clock *)

(** [os.environ]. *)
Abbreviation environ := (gmap string string).

(** [os.getenv(name, default)]. *)
Definition getenv (env : environ) (name default : string) : string :=
  match env !! name with
  | Some v => v
  | None => default
  end.

(** [apache_beam.utils.timestamp.Timestamp]: microseconds since the epoch. *)
Module Timestamp.

Record t : Type := { micros : Z }.

(** The wall clock as one call of the validator sees it: the time at which
    the call began, and the time that passes until the call reads the
    clock (both in microseconds). *)
Record clock : Type := { began : Z; elapsed : N }.

(** [Timestamp.now()]. *)
Definition now (c : clock) : t := {| micros := began c + Z.of_N (elapsed c) |}.

(** The decimal digits of [n], padded with zeros to [width] at least. *)
Definition padded (width : nat) (n : Z) : string :=
  let d := pretty (Z.to_N n) in
  String.concat "" (replicate (width - String.length d) "0") ++ d.

(** [to_rfc3339()]: the UTC date and time in ISO format, the microseconds
    only when they are not zero, then [Z].  The clock is taken within the
    range of [datetime] (years 1 to 9999), where the conversion is
    defined. *)
Definition to_rfc3339 (ts : t) : string :=
  let day := micros ts / 86400000000 in
  let us := micros ts mod 86400000000 in
  let z := day + 719468 in
  let era := z / 146097 in
  let doe := z - era * 146097 in
  let yoe := (doe - doe / 1460 + doe / 36524 - doe / 146096) / 365 in
  let doy := doe - (365 * yoe + yoe / 4 - yoe / 100) in
  let mp := (5 * doy + 2) / 153 in
  let d := doy - (153 * mp + 2) / 5 + 1 in
  let m := if mp <? 10 then mp + 3 else mp - 9 in
  let y := yoe + era * 400 + (if m <=? 2 then 1 else 0) in
  let secs := us / 1000000 in
  let frac := us mod 1000000 in
  let hh := secs / 3600 in
  let mm := secs / 60 mod 60 in
  let ss := secs mod 60 in
  let microsecond := if frac =? 0 then "" else ("." ++ padded 6 frac)%string in
  (padded 4 y ++ "-" ++ padded 2 m ++ "-" ++ padded 2 d ++ "T"
   ++ padded 2 hh ++ ":" ++ padded 2 mm ++ ":" ++ padded 2 ss
   ++ microsecond ++ "Z")%string.

End Timestamp.

(** ** [dataflow/streamingpipeline.py] *)

Module streamingpipeline.

(** What the module does when it is loaded (lines 7 to 11): both settings
    are read from the environment, and the process exits when one of them is
    missing or empty. *)
Definition load_module (env : environ) : result (string * string) :=
  let PUBSUB_SUBSCRIPTION := getenv env "PUBSUB_SUBSCRIPTION" "" in
  let BIGQUERY_TABLE := getenv env "BIGQUERY_TABLE" "" in
  if negb (Builtins.truthy PUBSUB_SUBSCRIPTION) || negb (Builtins.truthy BIGQUERY_TABLE)
  then Raise (SystemExit [Lit "Missing env vars. Set PUBSUB_SUBSCRIPTION and BIGQUERY_TABLE."])
  else Ok (PUBSUB_SUBSCRIPTION, BIGQUERY_TABLE).

Definition BQ_SCHEMA : string :=
  "event_ts:TIMESTAMP," ++
  "patient_id:INTEGER," ++
  "heart_rate:INTEGER," ++
  "temperature:FLOAT," ++
  "bp_diastolic:INTEGER," ++
  "bp_systolic:INTEGER," ++
  "spo2:INTEGER," ++
  "ingest_ts:TIMESTAMP".

Module ParseAndValidate.

Definition required : list string :=
  ["event_ts"; "patient_id"; "heart_rate"; "temperature"; "bp_diastolic";
   "bp_systolic"; "spo2"].

(** [all(k in obj for k in required)]: the keys are tried in order, up to
    the first that is missing or whose test raises. *)
Fixpoint all_in (keys : list string) (obj : pyval) : result bool :=
  match keys with
  | [] => Ok true
  | k :: keys =>
      b ← Builtins.contains k obj;
      if b : bool then all_in keys obj else Ok false
  end.

(** The float literals [85.0] and [110.0]. *)
Definition temperature_min : spec_float := Float.of_decimal false 850 (-1).
Definition temperature_max : spec_float := Float.of_decimal false 1100 (-1).

(** Lines 37 to 71: the body of the [try] block once [obj] is parsed.  The
    outcome is the list of the rows the generator yields. *)
Definition validate {py : Interpreter} (ingest_ts : string) (obj : pyval)
  : result (list pydict) :=
  present ← all_in required obj;
  if negb present then Ok []
  else
    event_ts ← Builtins.getitem obj "event_ts";
    patient_id ← Builtins.getitem obj "patient_id" ≫= Builtins.int;
    heart_rate ← Builtins.getitem obj "heart_rate" ≫= Builtins.int;
    temperature ← Builtins.getitem obj "temperature" ≫= Builtins.float;
    bp_diastolic ← Builtins.getitem obj "bp_diastolic" ≫= Builtins.int;
    bp_systolic ← Builtins.getitem obj "bp_systolic" ≫= Builtins.int;
    spo2 ← Builtins.getitem obj "spo2" ≫= Builtins.int;
    let row : pydict :=
      <["ingest_ts" := PyStr ingest_ts]>
      (<["spo2" := PyInt spo2]>
      (<["bp_systolic" := PyInt bp_systolic]>
      (<["bp_diastolic" := PyInt bp_diastolic]>
      (<["temperature" := PyFloat temperature]>
      (<["heart_rate" := PyInt heart_rate]>
      (<["patient_id" := PyInt patient_id]>
      (<["event_ts" := event_ts]> ∅))))))) in
    if negb ((0 <? patient_id) && (patient_id <=? 10000)) then Ok []
    else if negb ((30 <=? heart_rate) && (heart_rate <=? 220)) then Ok []
    else if negb (Float.le temperature_min temperature
                  && Float.le temperature temperature_max) then Ok []
    else if negb ((30 <=? bp_diastolic) && (bp_diastolic <=? 150)) then Ok []
    else if negb ((50 <=? bp_systolic) && (bp_systolic <=? 250)) then Ok []
    else if negb ((50 <=? spo2) && (spo2 <=? 100)) then Ok []
    else Ok [row].

(** [process(self, message_bytes)], run to the end of the generator: the
    rows it yields, or the exception that leaves it.  The clock is read
    before the [try] block is entered. *)
Definition process {py : Interpreter} (c : Timestamp.clock)
    (message_bytes : list Byte.byte) : result (list pydict) :=
  let ingest_ts := Timestamp.to_rfc3339 (Timestamp.now c) in
  try_except_Exception
    (raw ← Utf8.decode message_bytes;
     obj ← Json.loads raw;
     validate ingest_ts obj)
    (Ok []).

End ParseAndValidate.

End streamingpipeline.

(** ** [simulator1/patient_vitals.py] *)

(** The [random] module, as far as the generator uses it: the state holds
    the numbers the generator will draw, and how many were drawn. *)
Module random.

Record state : Type := { draws : nat -> nat; drawn : nat }.

(** [random.choice(seq)]: the element at an index below [len(seq)] that
    the next draw fixes; [IndexError] on an empty sequence. *)
Definition choice {A : Type} (seq : list A) (st : state) : result (A * state) :=
  match seq !! (draws st (drawn st) mod length seq)%nat with
  | Some x => Ok (x, {| draws := draws st; drawn := S (drawn st) |})
  | None => Raise IndexError
  end.

End random.

(** [time.sleep(secs)] for a float, in what it tests before it sleeps: a
    NaN is refused with [ValueError].  For any other value the outcome is
    [slept secs]: that of the tests that follow, and of the sleep itself. *)
Module time.


End time.

Module patient_vitals.

(** [os.getenv(name)], [None] when the variable is not set. *)
Definition getenv_opt (env : environ) (name : string) : option string := env !! name.

Definition _get_env_int {py : Interpreter} (env : environ) (name : string)
    (default : Z) : result Z :=
  match getenv_opt env name with
  | None => Ok default
  | Some val =>
      if String.eqb val "" then Ok default
      else
        try_except_ValueError (Text.int_of_str val)
          (Raise (SystemExit [Lit "Invalid int for "; Lit name; Lit "="; Repr val]))
  end.

Definition _get_env_float (env : environ) (name : string) (default : spec_float)
  : result spec_float :=
  match getenv_opt env name with
  | None => Ok default
  | Some val =>
      if String.eqb val "" then Ok default
      else
        try_except_ValueError (Text.float_of_str val)
          (Raise (SystemExit [Lit "Invalid float for "; Lit name; Lit "="; Repr val]))
  end.

(** [str.isspace] for one character. *)
Definition isspace (cp : N) : bool :=
  ((cp =? 32) || ((9 <=? cp) && (cp <=? 13)) || ((28 <=? cp) && (cp <=? 31)))%N
  || existsb (N.eqb cp) Text.unicode_spaces.

Fixpoint lstrip (cps : list N) : list N :=
  match cps with
  | cp :: r => if isspace cp then lstrip r else cps
  | [] => []
  end.

(** [s.strip()]. *)
Definition strip (s : string) : string :=
  match Utf8.code_points s with
  | Some cps =>
      String.concat ""
        (map Utf8.encode_point (rev (lstrip (rev (lstrip cps)))))
  | None => s
  end.

(** [s.lower()] on the letters A to Z.  The other characters are left as
    they are: lowering them gives no ASCII letter, but for U+212A, which
    gives k, so whether the result is one of the names [main] tests it
    against (all ASCII, none with a k) is not changed. *)
Definition lower (s : string) : string :=
  string_of_list_ascii (map Text.lower (list_ascii_of_string s)).

(** [a or b] for strs. *)
Definition or_else (a b : string) : string := if Builtins.truthy a then a else b.

Definition modes : list string :=
  ["missing_field"; "null_field"; "negative_value"; "out_of_range"; "bad_type"].

Definition required_fields : list string :=
  ["patient_id"; "event_ts"; "heart_rate"; "temperature"; "bp_systolic";
   "bp_diastolic"; "spo2"].

(** [inject_error(record, error_mode, missing_field_style)]: the record
    after the change, with the state of the random generator. *)
Definition inject_error (record : pydict) (error_mode missing_field_style : string)
    (st : random.state) : result (pydict * random.state) :=
  if String.eqb error_mode "none" then Ok (record, st)
  else
    '(mode, st) ← (if String.eqb error_mode "mixed"
                   then random.choice modes st
                   else Ok (error_mode, st));
    if String.eqb mode "missing_field" then
      '(field, st) ← random.choice required_fields st;
      if String.eqb missing_field_style "delete"
      then Ok (delete field record, st)
      else Ok (<[field := PyNone]> record, st)
    else if String.eqb mode "null_field" then
      '(field, st) ← random.choice required_fields st;
      Ok (<[field := PyNone]> record, st)
    else if String.eqb mode "negative_value" then
      Ok (<["heart_rate" := PyInt (-1)]> record, st)
    else if String.eqb mode "out_of_range" then
      Ok (<["spo2" := PyInt 150]> record, st)
    else if String.eqb mode "bad_type" then
      Ok (<["bp_systolic" := PyStr "one-sixty"]> record, st)
    else Ok (record, st).

(** The settings [main] reads. *)
Record settings : Type := {
  patient_count : Z;
  stream_interval : spec_float;
  error_rate : spec_float;
  error_mode : string;
  missing_field_style : string
}.

Definition error_modes : list string :=
  ["mixed"; "none"; "missing_field"; "null_field"; "negative_value";
   "out_of_range"; "bad_type"].

Definition missing_field_styles : list string := ["delete"; "null"].

(** [x in {...}] for a set of strs. *)
Definition member (x : string) (set : list string) : bool :=
  existsb (String.eqb x) set.

(** Lines 178 to 193 of [main]: the settings are read and checked; the
    outcome is the settings [main] goes on with, or the exception that ends
    the process. *)
Definition main_settings {py : Interpreter} (env : environ) : result settings :=
  patient_count ← _get_env_int env "PATIENT_COUNT" 30;
  stream_interval ← Text.float_of_str (getenv env "STREAM_INTERVAL" "1");
  error_rate ← _get_env_float env "ERROR_RATE" (Float.of_decimal false 1 (-1));
  let error_mode := lower (strip (or_else (getenv env "ERROR_MODE" "mixed") "mixed")) in
  let missing_field_style :=
    lower (strip (or_else (getenv env "MISSING_FIELD_STYLE" "delete") "delete")) in
  if patient_count <=? 0 then
    Raise (SystemExit [Lit "PATIENT_COUNT must be > 0"])
  else if Float.le stream_interval (S754_zero false) then
    Raise (SystemExit [Lit "STREAM_INTERVAL must be > 0"])
  else if negb (Float.le (S754_zero false) error_rate
                && Float.le error_rate (Float.of_decimal false 10 (-1))) then
    Raise (SystemExit [Lit "ERROR_RATE must be between 0.0 and 1.0"])
  else if negb (member error_mode error_modes) then
    Raise (SystemExit [Lit "ERROR_MODE must be one of: mixed|none|missing_field|null_field|negative_value|out_of_range|bad_type"])
  else if negb (member missing_field_style missing_field_styles) then
    Raise (SystemExit [Lit "MISSING_FIELD_STYLE must be delete or null"])
  else
    Ok {| patient_count := patient_count;
          stream_interval := stream_interval;
          error_rate := error_rate;
          error_mode := error_mode;
          missing_field_style := missing_field_style |}.

(** [os.getenv(name) or rest]. *)
Definition getenv_or (env : environ) (name rest : string) : string :=
  match getenv_opt env name with
  | Some v => or_else v rest
  | None => rest
  end.

(** [s.startswith("projects/") and "/topics/" in s]. *)
Definition is_topic_path (s : string) : bool :=
  String.prefix "projects/" s && Builtins.is_infix "/topics/" s.

(** [publisher.topic_path(project, topic)] of the Pub/Sub client. *)
Definition topic_path (project topic : string) : string :=
  "projects/" ++ project ++ "/topics/" ++ topic.

(** [resolve_topic_path(publisher)]. *)
Definition resolve_topic_path (env : environ) : result string :=
  let project_id := getenv_or env "PROJECT_ID" (getenv_or env "GCP_PROJECT" "") in
  let topic_id := getenv_or env "TOPIC_ID" (getenv_or env "PUBSUB_TOPIC" "") in
  let full_topic := getenv_or env "PUBSUB_TOPIC_FULL" "" in
  if is_topic_path topic_id then Ok topic_id
  else if is_topic_path full_topic then Ok full_topic
  else if negb (Builtins.truthy project_id) || negb (Builtins.truthy topic_id) then
    Raise (SystemExit
      [Lit "Missing topic configuration.
Set either:
  - PUBSUB_TOPIC=projects/<project>/topics/<topic>
OR
  - PROJECT_ID (or GCP_PROJECT) AND TOPIC_ID (topic short name)
Current values: PROJECT_ID="; Repr project_id;
       Lit ", TOPIC_ID/PUBSUB_TOPIC="; Repr topic_id])
  else Ok (topic_path project_id topic_id).





(** Lines 214 and 215 of [main]: an error is injected into the vitals, and
    the payload is flagged before it is published. *)
Definition with_injected_error (vitals : pydict) (error_mode missing_field_style : string)
    (st : random.state) : result (pydict * random.state) :=
  '(vitals, st) ← inject_error vitals error_mode missing_field_style st;
  Ok (<["_is_error" := PyBool true]> vitals, st).

End patient_vitals.

(** ** The table schema *)

(** [apache_beam.io.gcp.bigquery_tools], as far as the schema string of the
    pipeline needs it. *)
Module bigquery_tools.

(** [s.split(sep)] for a separator of one character. *)
Fixpoint split (sep : ascii) (s : string) : list string :=
  match s with
  | EmptyString => [EmptyString]
  | String c r =>
      if Ascii.eqb c sep then EmptyString :: split sep r
      else
        match split sep r with
        | w :: ws => String c w :: ws
        | [] => [String c EmptyString]
        end
  end.

(** [get_table_schema_from_string(schema)]: the columns, each a name and a
    type, of a schema written [name:type,name:type,...]; the parts between
    the commas are stripped, and a part that is not a name, a colon and a
    type raises [ValueError]. *)
Fixpoint fields_of (parts : list string) : result (list (string * string)) :=
  match parts with
  | [] => Ok []
  | part :: parts =>
      match split ":" part with
      | [name; type] =>
          fields ← fields_of parts; Ok ((name, type) :: fields)
      | _ => Raise ValueError
      end
  end.

Definition get_table_schema_from_string (schema : string)
  : result (list (string * string)) :=
  fields_of (map patient_vitals.strip (split "," schema)).

End bigquery_tools.

(** ** What the claims speak of *)

Module Spec.

Import streamingpipeline.ParseAndValidate.

(** The JSON value a message carries: what lines 34 and 35 of [process]
    compute from the bytes. *)
Definition payload {py : Interpreter} (message_bytes : list Byte.byte) : result pyval :=
  raw ← Utf8.decode message_bytes; Json.loads raw.

(** The rows of an outcome; an outcome that is an exception has none. *)
Definition rows_of (r : result (list pydict)) : list pydict :=
  match r with
  | Ok rows => rows
  | Raise _ => []
  end.

(** A piece of code raises nothing but subclasses of [Exception]. *)
Definition raises_only_Exception {A : Type} (r : result A) : Prop :=
  match r with
  | Ok _ => True
  | Raise e => is_Exception e = true
  end.

(** A JSON number whose exact value lies in the closed interval from [lo]
    to [hi]. *)
Definition in_closed_interval (lo hi : Z) (v : pyval) : bool :=
  match v with
  | PyInt z => (lo <=? z) && (z <=? hi)
  | PyFloat f =>
      match Float.value f with
      | Some x => Float.xle (Float.XFin lo 0) x && Float.xle x (Float.XFin hi 0)
      | None => false
      end
  | _ => false
  end.

(** The closed intervals of the six bounded fields. *)
Definition intervals : list (string * (Z * Z)) :=
  [("patient_id", (1, 10000)); ("heart_rate", (30, 220));
   ("temperature", (85, 110)); ("bp_diastolic", (30, 150));
   ("bp_systolic", (50, 250)); ("spo2", (50, 100))].

(** Every bounded field of the object is a number within its interval. *)
Definition within_intervals (d : pydict) : bool :=
  forallb (fun '(k, (lo, hi)) =>
             match d !! k with
             | Some v => in_closed_interval lo hi v
             | None => false
             end) intervals.

(** A valid payload: [event_ts] is there (with any value) and the bounded
    fields are numbers within their intervals. *)
Definition valid_payload (d : pydict) : Prop :=
  is_Some (d !! "event_ts") ∧ within_intervals d = true.

(** The record with the given fields. *)
Definition vitals_record (event_ts : pyval) (patient_id heart_rate : Z)
    (temperature : spec_float) (bp_diastolic bp_systolic spo2 : Z)
    (ingest_ts : string) : pydict :=
  <["ingest_ts" := PyStr ingest_ts]>
  (<["spo2" := PyInt spo2]>
  (<["bp_systolic" := PyInt bp_systolic]>
  (<["bp_diastolic" := PyInt bp_diastolic]>
  (<["temperature" := PyFloat temperature]>
  (<["heart_rate" := PyInt heart_rate]>
  (<["patient_id" := PyInt patient_id]>
  (<["event_ts" := event_ts]> ∅))))))).

(** The range checks of lines 64 to 69, together. *)
Definition in_range (patient_id heart_rate : Z) (temperature : spec_float)
    (bp_diastolic bp_systolic spo2 : Z) : bool :=
  ((0 <? patient_id) && (patient_id <=? 10000))
  && ((30 <=? heart_rate) && (heart_rate <=? 220))
  && (Float.le temperature_min temperature && Float.le temperature temperature_max)
  && ((30 <=? bp_diastolic) && (bp_diastolic <=? 150))
  && ((50 <=? bp_systolic) && (bp_systolic <=? 250))
  && ((50 <=? spo2) && (spo2 <=? 100)).

(** The names of the eight fields of a record. *)
Definition record_fields : gset string :=
  list_to_set ["event_ts"; "patient_id"; "heart_rate"; "temperature";
               "bp_diastolic"; "bp_systolic"; "spo2"; "ingest_ts"].

(** A complete record: the eight fields and no other, each bounded field of
    its type and within its interval. *)
Definition complete_record (row : pydict) : Prop :=
  dom row = record_fields ∧
  is_Some (row !! "event_ts") ∧
  (∃ s, row !! "ingest_ts" = Some (PyStr s)) ∧
  (∃ z, row !! "patient_id" = Some (PyInt z) ∧ 1 <= z <= 10000) ∧
  (∃ z, row !! "heart_rate" = Some (PyInt z) ∧ 30 <= z <= 220) ∧
  (∃ f, row !! "temperature" = Some (PyFloat f)
        ∧ in_closed_interval 85 110 (PyFloat f) = true) ∧
  (∃ z, row !! "bp_diastolic" = Some (PyInt z) ∧ 30 <= z <= 150) ∧
  (∃ z, row !! "bp_systolic" = Some (PyInt z) ∧ 50 <= z <= 250) ∧
  (∃ z, row !! "spo2" = Some (PyInt z) ∧ 50 <= z <= 100).

(** The field [k] of the object coerces to the integer [z], to the float
    [t]. *)
Definition coerced_int {py : Interpreter} (d : pydict) (k : string) (z : Z) : Prop :=
  ∃ v, d !! k = Some v ∧ Builtins.int v = Ok z.

Definition coerced_float (d : pydict) (k : string) (t : spec_float) : Prop :=
  ∃ v, d !! k = Some v ∧ Builtins.float v = Ok t.

(** The message is not a JSON object: its bytes are not UTF-8, or its text
    is not JSON, or the JSON value is not an object. *)
Definition not_an_object {py : Interpreter} (message_bytes : list Byte.byte) : Prop :=
  (∃ e, Utf8.decode message_bytes = Raise e)
  ∨ (∃ raw e, Utf8.decode message_bytes = Ok raw ∧ Json.loads raw = Raise e)
  ∨ (∃ raw v, Utf8.decode message_bytes = Ok raw ∧ Json.loads raw = Ok v
              ∧ ∀ d, v ≠ PyDict d).

(** The number [z] as the field [k] holds it: a float for the temperature,
    an integer for the other fields. *)
Definition number (k : string) (z : Z) : pyval :=
  if String.eqb k "temperature"
  then PyFloat (binary_normalize Float.prec Float.emax z 0 false)
  else PyInt z.

(** The fields the validator coerces to integers. *)
Definition int_fields : list string :=
  ["patient_id"; "heart_rate"; "bp_diastolic"; "bp_systolic"; "spo2"].

(** The coercion of one of the six bounded fields of the object raises. *)
Definition coercion_fails {py : Interpreter} (d : pydict) : Prop :=
  (∃ k v e, In k int_fields ∧ d !! k = Some v ∧ Builtins.int v = Raise e)
  ∨ (∃ v e, d !! "temperature" = Some v ∧ Builtins.float v = Raise e).

(** A float whose exact value is at least [lo] and less than [hi + 1]. *)
Definition truncates_into (lo hi : Z) (f : spec_float) : bool :=
  match Float.value f with
  | Some x =>
      Float.xle (Float.XFin lo 0) x && negb (Float.xle (Float.XFin (hi + 1) 0) x)
  | None => false
  end.

(** The value a row holds in a column is of the type of the column: an
    [int] in an [INTEGER] column, a [float] in a [FLOAT] column, anything in
    a column of another type. *)
Definition fits_column (row : pydict) (column : string * string) : bool :=
  match row !! column.1 with
  | Some v =>
      if String.eqb column.2 "INTEGER" then
        match v with PyInt _ => true | _ => false end
      else if String.eqb column.2 "FLOAT" then
        match v with PyFloat _ => true | _ => false end
      else true
  | None => false
  end.

(** The row has the columns of the schema and no other, each with a value
    of its type. *)
Definition fits_schema (fields : list (string * string)) (row : pydict) : Prop :=
  dom row = list_to_set (map fst fields)
  ∧ forallb (fits_column row) fields = true.

End Spec.

(** ** Messages used as examples *)

Module Examples.

(** The bytes of a text in which every apostrophe stands for a double
    quote. *)
Definition message (text : string) : list Byte.byte :=
  list_byte_of_string
    (string_of_list_ascii
       (map (fun c => if Ascii.eqb c "'" then ascii_of_N 34 else c)
            (list_ascii_of_string text))).

(** The clock of a call that began at 2024-01-01T00:00:05 UTC and read the
    time 250 microseconds later. *)
Definition clock : Timestamp.clock :=
  {| Timestamp.began := 1704067205000000; Timestamp.elapsed := 250 |}.

(** The end-to-end scenario of the specification. *)
Definition end_to_end : list Byte.byte :=
  message "{'event_ts':'2024-01-01T00:00:00Z','patient_id':5,'heart_rate':80,'temperature':98.6,'bp_diastolic':70,'bp_systolic':120,'spo2':97}".

(** The object the end-to-end message carries. *)
Definition end_to_end_object : pydict :=
  <["spo2" := PyInt 97]>
  (<["bp_systolic" := PyInt 120]>
  (<["bp_diastolic" := PyInt 70]>
  (<["temperature" := PyFloat (Float.of_decimal false 986 (-1))]>
  (<["heart_rate" := PyInt 80]>
  (<["patient_id" := PyInt 5]>
  (<["event_ts" := PyStr "2024-01-01T00:00:00Z"]> ∅)))))).

(** A message whose [event_ts] is an object, the rest valid. *)
Definition event_ts_object : list Byte.byte :=
  message "{'event_ts':{'a':[1,null]},'patient_id':5,'heart_rate':80,'temperature':98.6,'bp_diastolic':70,'bp_systolic':120,'spo2':97}".

(** The end-to-end message with the heart rate at 220, and at 221. *)
Definition heart_rate_220 : list Byte.byte :=
  message "{'event_ts':'2024-01-01T00:00:00Z','patient_id':5,'heart_rate':220,'temperature':98.6,'bp_diastolic':70,'bp_systolic':120,'spo2':97}".

Definition heart_rate_221 : list Byte.byte :=
  message "{'event_ts':'2024-01-01T00:00:00Z','patient_id':5,'heart_rate':221,'temperature':98.6,'bp_diastolic':70,'bp_systolic':120,'spo2':97}".

(** The end-to-end message without its heart rate. *)
Definition heart_rate_missing : list Byte.byte :=
  message "{'event_ts':'2024-01-01T00:00:00Z','patient_id':5,'temperature':98.6,'bp_diastolic':70,'bp_systolic':120,'spo2':97}".

(** A message that is a JSON array of the seven required names. *)
Definition array_of_names : list Byte.byte :=
  message "['event_ts','patient_id','heart_rate','temperature','bp_diastolic','bp_systolic','spo2']".

(** The end-to-end message with the boolean [true] as patient, and the
    object it carries. *)
Definition patient_id_true : list Byte.byte :=
  message "{'event_ts':'2024-01-01T00:00:00Z','patient_id':true,'heart_rate':80,'temperature':98.6,'bp_diastolic':70,'bp_systolic':120,'spo2':97}".

Definition patient_id_true_object : pydict :=
  <["patient_id" := PyBool true]> end_to_end_object.

(** The end-to-end message with [null] as oxygen saturation. *)
Definition spo2_null : list Byte.byte :=
  message "{'event_ts':'2024-01-01T00:00:00Z','patient_id':5,'heart_rate':80,'temperature':98.6,'bp_diastolic':70,'bp_systolic':120,'spo2':null}".

(** A random generator whose every draw is [n]. *)
Definition always (n : nat) : random.state :=
  {| random.draws := fun _ => n; random.drawn := 0 |}.

(** The end-to-end payload after [null_field] has picked [event_ts], as the
    generator publishes it, and the message that carries it. *)
Definition event_ts_nulled : pydict :=
  <["_is_error" := PyBool true]> (<["event_ts" := PyNone]> end_to_end_object).

Definition event_ts_null : list Byte.byte :=
  message "{'event_ts':null,'patient_id':5,'heart_rate':80,'temperature':98.6,'bp_systolic':120,'bp_diastolic':70,'spo2':97,'_is_error':true}".

(** The same payload after [null_field] has picked [spo2]. *)
Definition spo2_nulled : pydict :=
  <["_is_error" := PyBool true]> (<["spo2" := PyNone]> end_to_end_object).

Definition spo2_null_flagged : list Byte.byte :=
  message "{'event_ts':'2024-01-01T00:00:00Z','patient_id':5,'heart_rate':80,'temperature':98.6,'bp_systolic':120,'bp_diastolic':70,'spo2':null,'_is_error':true}".


(** The end-to-end message with its keys in another order, blanks, and two
    keys the validator does not require. *)
Definition end_to_end_extended : list Byte.byte :=
  message "{ 'spo2': 97, 'note': [1, 2], 'bp_systolic': 120, 'bp_diastolic': 70, 'temperature': 98.6, 'heart_rate': 80, 'patient_id': 5, 'event_ts': '2024-01-01T00:00:00Z', '_is_error': false }".

(** The end-to-end message with a heart rate of 220.9. *)
Definition heart_rate_220_9 : list Byte.byte :=
  message "{'event_ts':'2024-01-01T00:00:00Z','patient_id':5,'heart_rate':220.9,'temperature':98.6,'bp_diastolic':70,'bp_systolic':120,'spo2':97}".


(** The end-to-end payload with the flag the generator sets when it injects
    an error. *)
Definition end_to_end_flagged : list Byte.byte :=
  message "{'event_ts':'2024-01-01T00:00:00Z','patient_id':5,'heart_rate':80,'temperature':98.6,'bp_systolic':120,'bp_diastolic':70,'spo2':97,'_is_error':true}".

(** An environment that names the topic by its project and its short
    name. *)
Definition topic_by_parts : environ :=
  <["PROJECT_ID" := "demo"]> {[ "TOPIC_ID" := "vitals" ]}.


(** An interpreter as CPython starts it: a limit of 4300 digits, and room
    for some nine hundred calls where the validator runs. *)
Definition python : Interpreter :=
  {| recursion_room := 900; int_max_str_digits := 4300 |}.

End Examples.

(** * Properties *)

Import streamingpipeline.ParseAndValidate.
Import Spec.

(** ** Exact comparison of floats *)

Lemma pow2_pos (k : Z) : 0 <= k -> 0 < 2 ^ k.
Proof. intros Hk. apply Z.pow_pos_nonneg; lia. Qed.

(** The comparison may be made at any exponent below both. *)
Lemma xcompare_fin_base (m1 e1 m2 e2 e : Z) :
  e <= Z.min e1 e2 ->
  Float.xcompare (Float.XFin m1 e1) (Float.XFin m2 e2)
  = (m1 * 2 ^ (e1 - e) ?= m2 * 2 ^ (e2 - e)).
Proof.
  intros He. cbn [Float.xcompare].
  set (e0 := Z.min e1 e2) in *.
  assert (He1 : e0 <= e1) by (subst e0; lia).
  assert (He2 : e0 <= e2) by (subst e0; lia).
  replace (e1 - e) with ((e1 - e0) + (e0 - e)) by lia.
  replace (e2 - e) with ((e2 - e0) + (e0 - e)) by lia.
  rewrite !Z.pow_add_r by lia.
  rewrite !Z.mul_assoc.
  apply Zmult_compare_compat_r. apply Z.lt_gt, pow2_pos. lia.
Qed.

(** [a * 2^k] with exponent [-k] compares as [a] with exponent 0. *)
Lemma xcompare_scaled_l (a k : Z) (x : Float.xreal) :
  0 <= k ->
  Float.xcompare (Float.XFin (a * 2 ^ k) (- k)) x = Float.xcompare (Float.XFin a 0) x.
Proof.
  intros Hk. destruct x as [|m e|]; try reflexivity.
  rewrite (xcompare_fin_base _ _ _ _ (Z.min (- k) e)) by lia.
  rewrite (xcompare_fin_base a 0 _ _ (Z.min (- k) e)) by lia.
  f_equal. rewrite <- Z.mul_assoc, <- Z.pow_add_r by lia. f_equal. f_equal. lia.
Qed.

Lemma xcompare_scaled_r (a k : Z) (x : Float.xreal) :
  0 <= k ->
  Float.xcompare x (Float.XFin (a * 2 ^ k) (- k)) = Float.xcompare x (Float.XFin a 0).
Proof.
  intros Hk. destruct x as [|m e|]; try reflexivity.
  rewrite (xcompare_fin_base _ _ _ _ (Z.min e (- k))) by lia.
  rewrite (xcompare_fin_base _ _ a 0 (Z.min e (- k))) by lia.
  f_equal. rewrite <- Z.mul_assoc, <- Z.pow_add_r by lia. f_equal. f_equal. lia.
Qed.

(** The range check on the temperature is the exact test of the interval
    from 85 to 110: the two literals denote 85 and 110. *)
Lemma temperature_check_exact (t : spec_float) :
  Float.le temperature_min t && Float.le t temperature_max
  = in_closed_interval 85 110 (PyFloat t).
Proof.
  unfold Float.le, in_closed_interval.
  change (Float.value temperature_min)
    with (Some (Float.XFin (85 * 2 ^ 46) (- 46))).
  change (Float.value temperature_max)
    with (Some (Float.XFin (110 * 2 ^ 46) (- 46))).
  destruct (Float.value t) as [x|]; [|reflexivity].
  unfold Float.xle.
  rewrite xcompare_scaled_l, xcompare_scaled_r by lia. reflexivity.
Qed.

(** ** Coercion of numbers that lie within an interval *)

Lemma xle_fin (m1 e1 m2 e2 : Z) :
  Float.xle (Float.XFin m1 e1) (Float.XFin m2 e2) = true ->
  m1 * 2 ^ (e1 - Z.min e1 e2) <= m2 * 2 ^ (e2 - Z.min e1 e2).
Proof.
  unfold Float.xle. cbn [Float.xcompare].
  destruct (Z.compare_spec (m1 * 2 ^ (e1 - Z.min e1 e2))
                           (m2 * 2 ^ (e2 - Z.min e1 e2))); intros;
    first [lia | discriminate].
Qed.

(** Truncation keeps a float within an interval of integers that starts at
    zero or above. *)
Lemma trunc_in_interval (lo hi : Z) (f : spec_float) :
  0 <= lo ->
  in_closed_interval lo hi (PyFloat f) = true ->
  ∃ z, Float.trunc f = Ok z ∧ lo <= z <= hi.
Proof.
  intros Hlo. unfold in_closed_interval.
  destruct f as [s|s| |s m e]; cbn [Float.value Float.trunc].
  - intros [H1 H2]%andb_true_iff.
    apply xle_fin in H1. apply xle_fin in H2. cbn in H1, H2.
    exists 0. split; [reflexivity | lia].
  - destruct s; cbn; rewrite ?andb_false_r; discriminate.
  - discriminate.
  - intros [H1 H2]%andb_true_iff.
    apply xle_fin in H1. apply xle_fin in H2.
    destruct (Z.leb_spec 0 e) as [He|He].
    + rewrite Z.min_l in H1 by lia. rewrite Z.min_r in H2 by lia.
      rewrite ?Z.sub_0_r, ?Z.sub_diag, ?Z.pow_0_r, ?Z.mul_1_r in *.
      assert (Hp : 0 < 2 ^ e) by (apply pow2_pos; lia).
      destruct s; cbn [cond_Zopp] in *.
      * exfalso. nia.
      * eexists. split; [reflexivity|]. lia.
    + rewrite Z.min_r in H1 by lia. rewrite Z.min_l in H2 by lia.
      rewrite ?Z.sub_diag, ?Z.sub_0_l, ?Z.pow_0_r, ?Z.mul_1_r in *.
      assert (Hp : 0 < 2 ^ (- e)) by (apply pow2_pos; lia).
      destruct s; cbn [cond_Zopp] in *.
      * exfalso. nia.
      * eexists. split; [reflexivity|]. split.
        -- apply Z.div_le_lower_bound; lia.
        -- apply Z.div_le_upper_bound; lia.
Qed.

(** [int(v)] of a number within an interval of integers that starts at zero
    or above succeeds, within the interval. *)
Lemma int_in_interval {py : Interpreter} (lo hi : Z) (v : pyval) :
  0 <= lo ->
  in_closed_interval lo hi v = true ->
  ∃ z, Builtins.int v = Ok z ∧ lo <= z <= hi.
Proof.
  intros Hlo H. destruct v; try discriminate.
  - cbn in H. apply andb_true_iff in H as [H1 H2].
    exists z. split; [reflexivity | lia].
  - apply trunc_in_interval; assumption.
Qed.

(** Converting an integer from 85 to 110 to a float is exact. *)
Lemma of_int_temperature (z : Z) :
  85 <= z <= 110 ->
  ∃ t, Float.of_int z = Ok t ∧ in_closed_interval 85 110 (PyFloat t) = true.
Proof.
  intros Hz.
  assert (Hn : ∃ n : nat, z = 85 + Z.of_nat n ∧ (n <= 25)%nat).
  { exists (Z.to_nat (z - 85)). lia. }
  destruct Hn as (n & -> & Hn).
  do 26 (destruct n as [|n]; [eexists; split; vm_compute; reflexivity|]).
  lia.
Qed.

(** [float(v)] of a number within the interval of the temperature succeeds,
    within the interval. *)
Lemma float_in_interval (v : pyval) :
  in_closed_interval 85 110 v = true ->
  ∃ t, Builtins.float v = Ok t ∧ in_closed_interval 85 110 (PyFloat t) = true.
Proof.
  intros H. destruct v; try discriminate.
  - cbn in H. apply andb_true_iff in H as [H1 H2].
    apply of_int_temperature. lia.
  - exists f. split; [reflexivity | assumption].
Qed.

(** ** The fuel of the scanner *)

Lemma skip_ws_length (s : string) :
  (String.length (Json.skip_ws s) <= String.length s)%nat.
Proof.
  induction s as [|c s IH]; cbn [Json.skip_ws]; [lia|].
  destruct (Json.is_ws c); cbn [String.length] in *; lia.
Qed.

Ltac ok_step H :=
  match type of H with
  | Raise _ = Ok _ => discriminate H
  | Ok _ = Ok _ => injection H as <- <-
  | (_ ≫= _) = Ok _ =>
      let E := fresh "E" in
      match type of H with
      | (?m ≫= _) = _ =>
          first [destruct m as [[? ?]|?] eqn:E | destruct m as [?|?] eqn:E];
          cbn [mbind result_bind Py.bind] in H
      end
  | (match ?x with _ => _ end) = Ok _ => destruct x eqn:?
  end.

Lemma scanstring_length (room : nat) (s t r : string) :
  Json.scanstring room s = Ok (t, r) -> (String.length r < String.length s)%nat.
Proof.
  remember (String.length s) as n eqn:Hn.
  assert (Hle : (String.length s <= n)%nat) by lia. clear Hn.
  revert s t r Hle. induction n as [|n IH]; intros s t r Hle H.
  - destruct s; [discriminate | cbn in Hle; lia].
  - destruct s as [|c s']; [discriminate|].
    cbn [Json.scanstring] in H.
    repeat ok_step H.
    all: repeat match goal with
                | E : Json.scanstring _ ?x = Ok (_, _) |- _ =>
                    apply IH in E; [|subst; cbn [String.length] in *; lia]
                end.
    all: subst; cbn [String.length] in *; lia.
Qed.

Lemma literal_length (lit s r : string) :
  Json.literal lit s = Some r ->
  (String.length r + String.length lit = String.length s)%nat.
Proof.
  revert s. induction lit as [|a lit IH]; intros s H.
  - destruct s; injection H as <-; cbn; lia.
  - destruct s as [|b s]; [discriminate|]. cbn [Json.literal] in H.
    destruct (Ascii.eqb a b); [|discriminate].
    apply IH in H. cbn [String.length]. lia.
Qed.

Lemma span_digits_length (s d r : string) :
  Json.span_digits s = (d, r) -> (String.length r <= String.length s)%nat.
Proof.
  revert d r. induction s as [|c s IH]; intros d r H; cbn [Json.span_digits] in H.
  - injection H as <- <-. lia.
  - destruct (Json.is_digit c).
    + destruct (Json.span_digits s) as [d' r'] eqn:E. injection H as <- <-.
      specialize (IH _ _ eq_refl). cbn [String.length]. lia.
    + injection H as <- <-. lia.
Qed.

Lemma match_number_length {py : Interpreter} (s : string) (res : result pyval)
    (r : string) :
  Json.match_number s = Some (res, r) -> (String.length r < String.length s)%nat.
Proof.
  unfold Json.match_number. intros H.
  destruct (Json.match_integer s) as [[integer r0]|] eqn:Ei; [|discriminate].
  cbn in H.
  destruct (Json.match_frac r0) as [frac r1] eqn:Ef.
  destruct (Json.match_exp r1) as [exp r2] eqn:Ee.
  assert (H0 : (String.length r0 < String.length s)%nat).
  { unfold Json.match_integer in Ei.
    destruct s as [|c0 s']; [discriminate|].
    destruct (N_of_ascii c0 =? 45)%N;
      repeat match type of Ei with
             | context [match ?x with _ => _ end] => destruct x eqn:?
             end; try discriminate; injection Ei as <- <-;
      repeat match goal with
             | E : Json.span_digits _ = _ |- _ => apply span_digits_length in E
             end; cbn [String.length] in *; lia. }
  assert (H1 : (String.length r1 <= String.length r0)%nat).
  { unfold Json.match_frac in Ef.
    repeat match type of Ef with
           | context [match ?x with _ => _ end] => destruct x eqn:?
           end; try discriminate; injection Ef as <- <-;
      repeat match goal with
             | E : Json.span_digits _ = _ |- _ => apply span_digits_length in E
             end; cbn [String.length] in *; lia. }
  assert (H2 : (String.length r2 <= String.length r1)%nat).
  { unfold Json.match_exp in Ee.
    destruct r1 as [|c1 r1']; [injection Ee as <- <-; lia|].
    destruct (_ || _)%bool; [|injection Ee as <- <-; lia].
    destruct r1' as [|g r1'']; [|destruct (_ || _)%bool];
      repeat match type of Ee with
             | context [match ?x with _ => _ end] => destruct x eqn:?
             end; try discriminate; injection Ee as <- <-;
      repeat match goal with
             | E : Json.span_digits _ = _ |- _ => apply span_digits_length in E
             end; cbn [String.length] in *; lia. }
  destruct frac, exp; injection H as _ <-; lia.
Qed.

Lemma constant_length (s : string) (v : pyval) (r : string) :
  Json.constant s = Ok (v, r) -> (String.length r < String.length s)%nat.
Proof.
  unfold Json.constant. intros H.
  repeat match type of H with
         | context [match ?x with _ => _ end] => destruct x eqn:?
         end; try discriminate; injection H as <- <-;
    match goal with
    | E : Json.literal _ _ = Some _ |- _ => apply literal_length in E; cbn in E; lia
    end.
Qed.

(** What the scanner leaves is shorter than what it was given. *)
Lemma scan_length {py : Interpreter} (fuel : nat) :
  (∀ room s v r, Json.scan_once fuel room s = Ok (v, r) ->
                 (String.length r < String.length s)%nat)
  ∧ (∀ room acc s v r, Json.array_items fuel room acc s = Ok (v, r) ->
                       (String.length r < String.length s)%nat)
  ∧ (∀ room acc s v r, Json.object_items fuel room acc s = Ok (v, r) ->
                       (String.length r < String.length s)%nat).
Proof.
  induction fuel as [|fuel (IHs & IHa & IHo)].
  - repeat split; intros; discriminate.
  - repeat split.
    + intros room s v r H. cbn [Json.scan_once] in H.
      repeat ok_step H.
      all: repeat match goal with
                  | E : Json.scanstring _ _ = Ok _ |- _ => apply scanstring_length in E
                  | E : Json.object_items _ _ _ _ = Ok _ |- _ => apply IHo in E
                  | E : Json.array_items _ _ _ _ = Ok _ |- _ => apply IHa in E
                  | E : Json.constant _ = Ok _ |- _ => apply constant_length in E
                  | E : Json.match_number _ = Some _ |- _ => apply match_number_length in E
                  | E : Json.literal _ _ = Some _ |- _ =>
                      apply literal_length in E; cbn [String.length] in E
                  | E : Json.skip_ws ?x = _ |- _ =>
                      pose proof (skip_ws_length x); rewrite E in *; clear E
                  end.
      all: subst; cbn [String.length] in *; lia.
    + intros room acc s v r H. cbn [Json.array_items] in H.
      repeat ok_step H.
      all: repeat match goal with
                  | E : Json.scan_once _ _ _ = Ok _ |- _ => apply IHs in E
                  | E : Json.array_items _ _ _ _ = Ok _ |- _ => apply IHa in E
                  | E : Json.skip_ws ?x = _ |- _ =>
                      pose proof (skip_ws_length x); rewrite E in *; clear E
                  end.
      all: try match goal with
               | |- context [Json.skip_ws ?x] => pose proof (skip_ws_length x)
               | H : context [Json.skip_ws ?x] |- _ => pose proof (skip_ws_length x)
               end.
      all: subst; cbn [String.length] in *; lia.
    + intros room acc s v r H. cbn [Json.object_items] in H.
      repeat ok_step H.
      all: repeat match goal with
                  | E : Json.scanstring _ _ = Ok _ |- _ => apply scanstring_length in E
                  | E : Json.scan_once _ _ _ = Ok _ |- _ => apply IHs in E
                  | E : Json.object_items _ _ _ _ = Ok _ |- _ => apply IHo in E
                  | E : Json.skip_ws ?x = _ |- _ =>
                      pose proof (skip_ws_length x); rewrite E in *; clear E
                  end.
      all: try match goal with
               | H : context [Json.skip_ws ?x] |- _ => pose proof (skip_ws_length x)
               end.
      all: subst; cbn [String.length] in *; lia.
Qed.

Ltac skip_ws_bounds :=
  repeat match goal with
         | H : context [Json.skip_ws ?x] |- _ =>
             pose proof (skip_ws_length x);
             let y := fresh "y" in set (y := Json.skip_ws x) in *; clearbody y
         | |- context [Json.skip_ws ?x] =>
             pose proof (skip_ws_length x);
             let y := fresh "y" in set (y := Json.skip_ws x) in *; clearbody y
         end;
  subst; cbn [String.length] in *.

(** Above [2 * length s + 1] the fuel makes no difference to [scan_once] on
    [s], and above [2 * length s + 2] none to the other two. *)
Lemma scan_fuel {py : Interpreter} (fuel1 : nat) :
  ∀ fuel2,
    (∀ room s, (2 * String.length s + 1 <= fuel1)%nat ->
               (2 * String.length s + 1 <= fuel2)%nat ->
               Json.scan_once fuel1 room s = Json.scan_once fuel2 room s)
    ∧ (∀ room acc s, (2 * String.length s + 2 <= fuel1)%nat ->
                     (2 * String.length s + 2 <= fuel2)%nat ->
                     Json.array_items fuel1 room acc s
                     = Json.array_items fuel2 room acc s)
    ∧ (∀ room acc s, (2 * String.length s + 2 <= fuel1)%nat ->
                     (2 * String.length s + 2 <= fuel2)%nat ->
                     Json.object_items fuel1 room acc s
                     = Json.object_items fuel2 room acc s).
Proof.
  induction fuel1 as [|fuel1 IH]; intros [|fuel2];
    try (repeat split; intros; lia).
  destruct (IH fuel2) as (IHs & IHa & IHo).
  repeat split.
  - intros room s H1 H2. cbn [Json.scan_once].
    destruct s as [|c r]; [reflexivity|].
    repeat match goal with
           | |- Json.object_items _ _ _ _ = Json.object_items _ _ _ _ =>
               apply IHo; skip_ws_bounds; lia
           | |- Json.array_items _ _ _ _ = Json.array_items _ _ _ _ =>
               apply IHa; skip_ws_bounds; lia
           | |- match ?x with _ => _ end = _ => destruct x eqn:?
           | |- _ => reflexivity
           end.
  - intros room acc s H1 H2. cbn [Json.array_items].
    rewrite (IHs room s) by lia.
    destruct (Json.scan_once fuel2 room s) as [[v r]|e] eqn:E;
      cbn [mbind result_bind Py.bind]; [|reflexivity].
    apply (proj1 (scan_length fuel2)) in E.
    repeat match goal with
           | |- Json.array_items _ _ _ _ = Json.array_items _ _ _ _ =>
               apply IHa; skip_ws_bounds; lia
           | |- match ?x with _ => _ end = _ => destruct x eqn:?
           | |- _ => reflexivity
           end.
  - intros room acc s H1 H2. cbn [Json.object_items].
    destruct (Json.scanstring room s) as [[key r]|e] eqn:E;
      cbn [mbind result_bind Py.bind]; [|reflexivity].
    apply scanstring_length in E.
    destruct (Json.skip_ws r) as [|c r'] eqn:Er; [reflexivity|].
    destruct (N_of_ascii c =? 58)%N; [|reflexivity].
    rewrite (IHs room (Json.skip_ws r')) by (skip_ws_bounds; lia).
    destruct (Json.scan_once fuel2 room (Json.skip_ws r')) as [[v r2]|e] eqn:E2;
      cbn [mbind result_bind Py.bind]; [|reflexivity].
    apply (proj1 (scan_length fuel2)) in E2.
    repeat match goal with
           | |- Json.object_items _ _ _ _ = Json.object_items _ _ _ _ =>
               apply IHo; skip_ws_bounds; lia
           | |- match ?x with _ => _ end = _ => destruct x eqn:?
           | |- _ => reflexivity
           end.
Qed.

(** The fuel [raw_decode] gives the scanner is enough: more of it changes
    nothing, so that it is the recursion limit and never the fuel that
    ends a scan with [RecursionError]. *)
Lemma scan_once_fuel {py : Interpreter} (fuel room : nat) (s : string) :
  (2 * String.length s + 2 <= fuel)%nat ->
  Json.scan_once fuel room (Json.skip_ws s)
  = Json.scan_once (2 * String.length s + 2) room (Json.skip_ws s).
Proof.
  intros H. pose proof (skip_ws_length s).
  apply (proj1 (scan_fuel fuel (2 * String.length s + 2))); lia.
Qed.

(** ** No exception but subclasses of [Exception] *)

Lemma roe_bind {A B : Type} (m : result A) (k : A -> result B) :
  raises_only_Exception m ->
  (∀ a, raises_only_Exception (k a)) ->
  raises_only_Exception (m ≫= k).
Proof. destruct m as [a|e]; cbn; auto. Qed.

Lemma roe_fmap {A B : Type} (f : A -> B) (m : result A) :
  raises_only_Exception m -> raises_only_Exception (f <$> m).
Proof. destruct m as [a|e]; cbn; auto. Qed.

Lemma decode_error_roe {A : Type} (room : nat) :
  raises_only_Exception (@Raise A (Json.decode_error room)).
Proof. unfold Json.decode_error. destruct (room <? 3)%nat; reflexivity. Qed.

Ltac roe_step :=
  match goal with
  | |- raises_only_Exception (Ok _) => exact I
  | |- raises_only_Exception (Raise (Json.decode_error _)) => apply decode_error_roe
  | |- raises_only_Exception (Raise _) => reflexivity
  | |- raises_only_Exception (_ ≫= _) => apply roe_bind; [|intros]
  | |- raises_only_Exception (_ <$> _) => apply roe_fmap
  | |- raises_only_Exception (match ?x with _ => _ end) => destruct x eqn:?
  | |- raises_only_Exception (let '(_, _) := ?x in _) => destruct x eqn:?
  end.

Lemma scanstring_roe (room : nat) (s : string) :
  raises_only_Exception (Json.scanstring room s).
Proof.
  remember (String.length s) as n eqn:Hn.
  assert (Hle : (String.length s <= n)%nat) by lia. clear Hn.
  revert s Hle. induction n as [|n IH]; intros s Hle.
  - destruct s; [apply decode_error_roe | cbn in Hle; lia].
  - destruct s as [|c r]; [apply decode_error_roe|].
    cbn [Json.scanstring].
    repeat
      match goal with
      | |- raises_only_Exception (Json.scanstring _ _) =>
          apply IH; subst; cbn [String.length] in *; lia
      | _ => roe_step
      end.
Qed.

Lemma int_of_str_roe {py : Interpreter} (s : string) : raises_only_Exception (Text.int_of_str s).
Proof. unfold Text.int_of_str. repeat roe_step. Qed.

Lemma float_of_str_roe (s : string) : raises_only_Exception (Text.float_of_str s).
Proof. unfold Text.float_of_str. repeat roe_step. Qed.

Lemma trunc_roe (f : spec_float) : raises_only_Exception (Float.trunc f).
Proof. destruct f; cbn; auto. Qed.

Lemma of_int_roe (z : Z) : raises_only_Exception (Float.of_int z).
Proof. unfold Float.of_int. repeat roe_step. Qed.

Lemma decode_roe (bs : list Byte.byte) : raises_only_Exception (Utf8.decode bs).
Proof. unfold Utf8.decode. repeat roe_step. Qed.

Lemma match_number_roe {py : Interpreter} (s : string) (res : result pyval) (rest : string) :
  Json.match_number s = Some (res, rest) -> raises_only_Exception res.
Proof.
  unfold Json.match_number. intros H.
  destruct (Json.match_integer s) as [[integer r]|]; [|discriminate].
  cbn in H.
  destruct (Json.match_frac r) as [frac r1].
  destruct (Json.match_exp r1) as [exp r2].
  destruct frac, exp; injection H as <- <-;
    first [apply roe_fmap, int_of_str_roe | apply roe_fmap, float_of_str_roe].
Qed.

Lemma constant_roe (s : string) : raises_only_Exception (Json.constant s).
Proof. unfold Json.constant. repeat roe_step. Qed.

Lemma scan_roe {py : Interpreter} (fuel : nat) :
  (∀ room s, raises_only_Exception (Json.scan_once fuel room s))
  ∧ (∀ room acc s, raises_only_Exception (Json.array_items fuel room acc s))
  ∧ (∀ room acc s, raises_only_Exception (Json.object_items fuel room acc s)).
Proof.
  induction fuel as [|fuel (IHs & IHa & IHo)].
  - repeat split; intros; reflexivity.
  - repeat split; intros.
    + cbn [Json.scan_once].
      repeat
        match goal with
        | |- raises_only_Exception (Json.scanstring _ _) => apply scanstring_roe
        | |- raises_only_Exception (Json.object_items _ _ _ _) => apply IHo
        | |- raises_only_Exception (Json.array_items _ _ _ _) => apply IHa
        | |- raises_only_Exception (Json.constant _) => apply constant_roe
        | H : Json.match_number _ = Some (?r, _) |- raises_only_Exception ?r =>
            exact (match_number_roe _ _ _ H)
        | _ => roe_step
        end.
    + cbn [Json.array_items].
      repeat
        match goal with
        | |- raises_only_Exception (Json.scan_once _ _ _) => apply IHs
        | |- raises_only_Exception (Json.array_items _ _ _ _) => apply IHa
        | _ => roe_step
        end.
    + cbn [Json.object_items].
      repeat
        match goal with
        | |- raises_only_Exception (Json.scanstring _ _) => apply scanstring_roe
        | |- raises_only_Exception (Json.scan_once _ _ _) => apply IHs
        | |- raises_only_Exception (Json.object_items _ _ _ _) => apply IHo
        | _ => roe_step
        end.
Qed.

Lemma raw_decode_roe {py : Interpreter} (s from_idx : string) :
  raises_only_Exception (Json.raw_decode s from_idx).
Proof.
  unfold Json.raw_decode.
  pose proof (proj1 (scan_roe (2 * String.length s + 2)) recursion_room from_idx) as H.
  destruct (Json.scan_once _ _ _) as [?|e]; [exact I|].
  destruct e; first [exact H | apply decode_error_roe].
Qed.

Lemma loads_roe {py : Interpreter} (s : string) : raises_only_Exception (Json.loads s).
Proof.
  unfold Json.loads, Json.decode.
  repeat
    match goal with
    | |- raises_only_Exception (Json.raw_decode _ _) => apply raw_decode_roe
    | _ => roe_step
    end.
Qed.

Lemma payload_roe {py : Interpreter} (bs : list Byte.byte) : raises_only_Exception (payload bs).
Proof.
  unfold payload. apply roe_bind; [apply decode_roe | intros; apply loads_roe].
Qed.

Lemma int_roe {py : Interpreter} (v : pyval) : raises_only_Exception (Builtins.int v).
Proof.
  destruct v; cbn; auto using trunc_roe, int_of_str_roe.
Qed.

Lemma float_roe (v : pyval) : raises_only_Exception (Builtins.float v).
Proof.
  destruct v; cbn; auto using of_int_roe, float_of_str_roe.
Qed.

Lemma contains_roe (k : string) (obj : pyval) :
  raises_only_Exception (Builtins.contains k obj).
Proof. destruct obj; cbn; auto. Qed.

Lemma getitem_roe (obj : pyval) (k : string) :
  raises_only_Exception (Builtins.getitem obj k).
Proof. destruct obj; cbn; auto. destruct (d !! k); cbn; auto. Qed.

Lemma all_in_roe (keys : list string) (obj : pyval) :
  raises_only_Exception (all_in keys obj).
Proof.
  induction keys as [|k keys IH]; cbn [all_in]; [exact I|].
  apply roe_bind; [apply contains_roe|]. intros [|]; [exact IH | exact I].
Qed.

Lemma validate_roe {py : Interpreter} (ingest_ts : string) (obj : pyval) :
  raises_only_Exception (validate ingest_ts obj).
Proof.
  unfold validate.
  repeat
    match goal with
    | |- raises_only_Exception (all_in _ _) => apply all_in_roe
    | |- raises_only_Exception (Builtins.getitem _ _) => apply getitem_roe
    | |- raises_only_Exception (Builtins.int _) => apply int_roe
    | |- raises_only_Exception (Builtins.float _) => apply float_roe
    | _ => roe_step
    end.
Qed.

(** ** The validator on a parsed payload *)

Lemma bind_assoc {A B C : Type} (m : result A) (f : A -> result B) (g : B -> result C) :
  (m ≫= f) ≫= g = m ≫= (fun a => f a ≫= g).
Proof. destruct m; reflexivity. Qed.

Lemma try_except_rows (body : result (list pydict)) :
  raises_only_Exception body ->
  try_except_Exception body (Ok []) = Ok (rows_of body).
Proof.
  destruct body as [rows|e]; cbn; [reflexivity|]. intros ->. reflexivity.
Qed.

(** [process] never raises: its outcome is the rows the [try] block yields,
    and none when the block raises. *)
Lemma process_rows {py : Interpreter} (c : Timestamp.clock) (bs : list Byte.byte) :
  process c bs
  = Ok (rows_of (payload bs
                 ≫= validate (Timestamp.to_rfc3339 (Timestamp.now c)))).
Proof.
  unfold process.
  set (i := Timestamp.to_rfc3339 (Timestamp.now c)).
  replace (Utf8.decode bs ≫= (λ raw, Json.loads raw ≫= (λ obj, validate i obj)))
    with (payload bs ≫= validate i)
    by (unfold payload; apply bind_assoc).
  apply try_except_rows.
  apply roe_bind; [apply payload_roe | intros; apply validate_roe].
Qed.

Lemma process_payload {py : Interpreter} (c : Timestamp.clock) (bs : list Byte.byte) (obj : pyval) :
  payload bs = Ok obj ->
  process c bs = Ok (rows_of (validate (Timestamp.to_rfc3339 (Timestamp.now c)) obj)).
Proof. intros H. rewrite process_rows, H. reflexivity. Qed.

Lemma all_in_dict (keys : list string) (d : pydict) :
  all_in keys (PyDict d)
  = Ok (forallb (fun k => bool_decide (is_Some (d !! k))) keys).
Proof.
  induction keys as [|k keys IH]; [reflexivity|].
  cbn [all_in forallb Builtins.contains]. cbn.
  destruct (bool_decide (is_Some (d !! k))); [exact IH | reflexivity].
Qed.

(** A dict that lacks a required key yields nothing. *)
Lemma validate_missing {py : Interpreter} (i : string) (d : pydict) (k : string) :
  In k required -> d !! k = None -> validate i (PyDict d) = Ok [].
Proof.
  intros Hk Hd. unfold validate. rewrite all_in_dict.
  assert (Hf : forallb (fun k => bool_decide (is_Some (d !! k))) required = false).
  { apply not_true_iff_false. intros Hall.
    rewrite forallb_forall in Hall. specialize (Hall k Hk).
    apply bool_decide_eq_true in Hall. rewrite Hd in Hall.
    destruct Hall as [? Hall]. discriminate. }
  rewrite Hf. reflexivity.
Qed.

(** A dict with the seven required keys: the six coercions in order, then
    the range checks. *)
Lemma validate_present {py : Interpreter} (i : string) (d : pydict) (ev vp vh vt vd vs vo : pyval) :
  d !! "event_ts" = Some ev ->
  d !! "patient_id" = Some vp ->
  d !! "heart_rate" = Some vh ->
  d !! "temperature" = Some vt ->
  d !! "bp_diastolic" = Some vd ->
  d !! "bp_systolic" = Some vs ->
  d !! "spo2" = Some vo ->
  validate i (PyDict d)
  = (p ← Builtins.int vp; h ← Builtins.int vh; t ← Builtins.float vt;
     dia ← Builtins.int vd; sys ← Builtins.int vs; sp ← Builtins.int vo;
     Ok (if in_range p h t dia sys sp
         then [vitals_record ev p h t dia sys sp i] else [])).
Proof.
  intros Hev Hvp Hvh Hvt Hvd Hvs Hvo.
  unfold validate. rewrite all_in_dict.
  cbn [forallb required]. rewrite Hev, Hvp, Hvh, Hvt, Hvd, Hvs, Hvo.
  cbn [Builtins.getitem]. rewrite Hev, Hvp, Hvh, Hvt, Hvd, Hvs, Hvo.
  cbn -[in_range vitals_record Builtins.int Builtins.float insert Float.le
       temperature_min temperature_max].
  destruct (Builtins.int vp) as [p|]; [|reflexivity].
  destruct (Builtins.int vh) as [h|]; [|reflexivity].
  destruct (Builtins.float vt) as [t|]; [|reflexivity].
  destruct (Builtins.int vd) as [dia|]; [|reflexivity].
  destruct (Builtins.int vs) as [sys|]; [|reflexivity].
  destruct (Builtins.int vo) as [sp|]; [|reflexivity].
  cbn -[in_range vitals_record insert Float.le temperature_min temperature_max].
  unfold in_range, vitals_record.
  destruct ((0 <? p) && (p <=? 10000)); [|reflexivity].
  destruct ((30 <=? h) && (h <=? 220)); [|reflexivity].
  destruct (Float.le temperature_min t && Float.le t temperature_max); [|reflexivity].
  destruct ((30 <=? dia) && (dia <=? 150)); [|reflexivity].
  destruct ((50 <=? sys) && (sys <=? 250)); [|reflexivity].
  destruct ((50 <=? sp) && (sp <=? 100)); reflexivity.
Qed.

(** ** Acceptance and rejection *)

(** The range checks, field by field. *)
Lemma in_range_spec (p h : Z) (t : spec_float) (dia sys sp : Z) :
  in_range p h t dia sys sp = true
  ↔ 1 <= p <= 10000 ∧ 30 <= h <= 220
    ∧ in_closed_interval 85 110 (PyFloat t) = true
    ∧ 30 <= dia <= 150 ∧ 50 <= sys <= 250 ∧ 50 <= sp <= 100.
Proof.
  unfold in_range. rewrite temperature_check_exact.
  rewrite !andb_true_iff, !Z.leb_le, Z.ltb_lt. intuition lia.
Qed.

(** A payload whose fields coerce to values that pass the range checks is
    accepted, with those values. *)
Lemma accepted_of_coerced {py : Interpreter} (c : Timestamp.clock) (bs : list Byte.byte) (d : pydict)
    (ev : pyval) (p h : Z) (t : spec_float) (dia sys sp : Z) :
  payload bs = Ok (PyDict d) ->
  d !! "event_ts" = Some ev ->
  coerced_int d "patient_id" p ->
  coerced_int d "heart_rate" h ->
  coerced_float d "temperature" t ->
  coerced_int d "bp_diastolic" dia ->
  coerced_int d "bp_systolic" sys ->
  coerced_int d "spo2" sp ->
  process c bs
  = Ok (if in_range p h t dia sys sp
        then [vitals_record ev p h t dia sys sp
                (Timestamp.to_rfc3339 (Timestamp.now c))]
        else []).
Proof.
  intros Hpay Hev (vp & Hvp & Hp) (vh & Hvh & Hh) (vt & Hvt & Ht)
    (vd & Hvd & Hd) (vs & Hvs & Hs) (vo & Hvo & Ho).
  rewrite (process_payload _ _ _ Hpay).
  rewrite (validate_present _ _ _ _ _ _ _ _ _ Hev Hvp Hvh Hvt Hvd Hvs Hvo).
  rewrite Hp, Hh, Ht, Hd, Hs, Ho. reflexivity.
Qed.

(** A field of a valid payload coerces to a value within its interval. *)
Lemma within_intervals_fields {py : Interpreter} (d : pydict) :
  within_intervals d = true ->
  ∃ p h t dia sys sp,
    coerced_int d "patient_id" p ∧ coerced_int d "heart_rate" h
    ∧ coerced_float d "temperature" t ∧ coerced_int d "bp_diastolic" dia
    ∧ coerced_int d "bp_systolic" sys ∧ coerced_int d "spo2" sp
    ∧ in_range p h t dia sys sp = true.
Proof.
  unfold within_intervals, intervals. cbn [forallb].
  rewrite !andb_true_iff.
  intros (Hp & Hh & Ht & Hd & Hs & Ho & _).
  destruct (d !! "patient_id") as [vp|] eqn:Evp; [|discriminate].
  destruct (d !! "heart_rate") as [vh|] eqn:Evh; [|discriminate].
  destruct (d !! "temperature") as [vt|] eqn:Evt; [|discriminate].
  destruct (d !! "bp_diastolic") as [vd|] eqn:Evd; [|discriminate].
  destruct (d !! "bp_systolic") as [vs|] eqn:Evs; [|discriminate].
  destruct (d !! "spo2") as [vo|] eqn:Evo; [|discriminate].
  apply int_in_interval in Hp as (p & Hp & ?); [|lia].
  apply int_in_interval in Hh as (h & Hh & ?); [|lia].
  apply float_in_interval in Ht as (t & Ht & ?).
  apply int_in_interval in Hd as (dia & Hd & ?); [|lia].
  apply int_in_interval in Hs as (sys & Hs & ?); [|lia].
  apply int_in_interval in Ho as (sp & Ho & ?); [|lia].
  exists p, h, t, dia, sys, sp.
  do 6 (split; [eexists; split; eassumption|]).
  apply in_range_spec. repeat split; first [assumption | lia].
Qed.

(** C1. Every message that decodes as UTF-8 and parses as a JSON object
    holding the seven required keys (among any others), with the six bounded
    fields numbers within their closed intervals, yields exactly one record:
    its fields are the coerced input values, and its [ingest_ts] is the
    rendering of a clock reading that is not before the time the call
    began. *)
Theorem valid_payload_is_accepted {py : Interpreter} (c : Timestamp.clock) (message_bytes : list Byte.byte)
    (d : pydict) :
  payload message_bytes = Ok (PyDict d) ->
  valid_payload d ->
  ∃ ev p h t dia sys sp,
    d !! "event_ts" = Some ev
    ∧ coerced_int d "patient_id" p ∧ coerced_int d "heart_rate" h
    ∧ coerced_float d "temperature" t ∧ coerced_int d "bp_diastolic" dia
    ∧ coerced_int d "bp_systolic" sys ∧ coerced_int d "spo2" sp
    ∧ process c message_bytes
      = Ok [vitals_record ev p h t dia sys sp
              (Timestamp.to_rfc3339 (Timestamp.now c))]
    ∧ Timestamp.began c <= Timestamp.micros (Timestamp.now c).
Proof.
  intros Hpay [[ev Hev] Hin].
  destruct (within_intervals_fields d Hin)
    as (p & h & t & dia & sys & sp & Hp & Hh & Ht & Hd & Hs & Ho & Hr).
  exists ev, p, h, t, dia, sys, sp.
  repeat (split; [assumption|]). split.
  - rewrite (accepted_of_coerced c _ d ev p h t dia sys sp) by assumption.
    rewrite Hr. reflexivity.
  - cbn. lia.
Qed.

(** The end-to-end scenario: the message is accepted with the values it
    states and a generated [ingest_ts]. *)
Lemma end_to_end_accepted :
  payload (py := Examples.python) Examples.end_to_end = Ok (PyDict Examples.end_to_end_object)
  ∧ valid_payload Examples.end_to_end_object
  ∧ process (py := Examples.python) Examples.clock Examples.end_to_end
    = Ok [vitals_record (PyStr "2024-01-01T00:00:00Z") 5 80
            (Float.of_decimal false 986 (-1)) 70 120 97
            "2024-01-01T00:00:05.000250Z"].
Proof.
  set (py := Examples.python).
  assert (Hpay : payload Examples.end_to_end = Ok (PyDict Examples.end_to_end_object))
    by (vm_compute; reflexivity).
  assert (Hval : valid_payload Examples.end_to_end_object)
    by (split; [eexists; vm_compute; reflexivity | vm_compute; reflexivity]).
  split; [exact Hpay|]. split; [exact Hval|].
  destruct (valid_payload_is_accepted Examples.clock _ _ Hpay Hval)
    as (ev & p & h & t & dia & sys & sp & Hev & (vp & Hvp & Hp) & (vh & Hvh & Hh)
        & (vt & Hvt & Ht) & (vd & Hvd & Hd) & (vs & Hvs & Hs) & (vo & Hvo & Ho)
        & Hproc & _).
  vm_compute in Hev, Hvp, Hvh, Hvt, Hvd, Hvs, Hvo.
  injection Hev as <-. injection Hvp as <-. injection Hvh as <-.
  injection Hvt as <-. injection Hvd as <-. injection Hvs as <-.
  injection Hvo as <-.
  vm_compute in Hp, Hh, Ht, Hd, Hs, Ho.
  injection Hp as <-. injection Hh as <-. injection Ht as <-.
  injection Hd as <-. injection Hs as <-. injection Ho as <-.
  rewrite Hproc. vm_compute. reflexivity.
Defined.

(** ** Dropped messages and complete records *)

(** A value that is not a dict yields nothing: the membership tests raise,
    or one fails, or subscripting by a str raises. *)
Lemma validate_not_a_dict {py : Interpreter} (i : string) (v : pyval) :
  (∀ d, v ≠ PyDict d) -> rows_of (validate i v) = [].
Proof.
  intros Hv. unfold validate.
  destruct (all_in required v) as [[|]|e] eqn:Hall; cbn; try reflexivity.
  destruct v; try reflexivity. exfalso. eapply Hv. reflexivity.
Qed.

(** The record the validator builds is complete when the range checks
    pass. *)
Lemma vitals_record_complete (ev : pyval) (p h : Z) (t : spec_float)
    (dia sys sp : Z) (i : string) :
  in_range p h t dia sys sp = true ->
  complete_record (vitals_record ev p h t dia sys sp i).
Proof.
  intros (Hp & Hh & Ht & Hd & Hs & Ho)%in_range_spec.
  unfold complete_record. split; [|split; [|split]].
  - unfold vitals_record, record_fields.
    rewrite !dom_insert_L, dom_empty_L. cbn. set_solver.
  - eexists. reflexivity.
  - eexists. reflexivity.
  - repeat split; eexists; (split; [reflexivity | assumption]).
Qed.

(** What [validate] yields does not depend on the time stamp, but for the
    [ingest_ts] of the record: it is nothing at every time stamp, or at
    every time stamp the record of the same seven values, which pass the
    range checks. *)
Lemma validate_shape {py : Interpreter} (v : pyval) :
  (∀ i, rows_of (validate i v) = [])
  ∨ ∃ ev p h t dia sys sp,
      in_range p h t dia sys sp = true
      ∧ ∀ i, rows_of (validate i v) = [vitals_record ev p h t dia sys sp i].
Proof.
  destruct v as [| | | | | |d];
    try (left; intros i; apply validate_not_a_dict; intros ?; discriminate).
  destruct (d !! "event_ts") as [ev|] eqn:Hev;
    [|left; intros i; rewrite (validate_missing i d "event_ts"); cbn; auto].
  destruct (d !! "patient_id") as [vp|] eqn:Hvp;
    [|left; intros i; rewrite (validate_missing i d "patient_id"); cbn; auto 10].
  destruct (d !! "heart_rate") as [vh|] eqn:Hvh;
    [|left; intros i; rewrite (validate_missing i d "heart_rate"); cbn; auto 10].
  destruct (d !! "temperature") as [vt|] eqn:Hvt;
    [|left; intros i; rewrite (validate_missing i d "temperature"); cbn; auto 10].
  destruct (d !! "bp_diastolic") as [vd|] eqn:Hvd;
    [|left; intros i; rewrite (validate_missing i d "bp_diastolic"); cbn; auto 10].
  destruct (d !! "bp_systolic") as [vs|] eqn:Hvs;
    [|left; intros i; rewrite (validate_missing i d "bp_systolic"); cbn; auto 10].
  destruct (d !! "spo2") as [vo|] eqn:Hvo;
    [|left; intros i; rewrite (validate_missing i d "spo2"); cbn; auto 10].
  pose proof (fun i => validate_present i _ _ _ _ _ _ _ _ Hev Hvp Hvh Hvt Hvd Hvs Hvo)
    as Hval.
  destruct (Builtins.int vp) as [p|]; [|left; intros i; rewrite Hval; reflexivity].
  destruct (Builtins.int vh) as [h|]; [|left; intros i; rewrite Hval; reflexivity].
  destruct (Builtins.float vt) as [t|]; [|left; intros i; rewrite Hval; reflexivity].
  destruct (Builtins.int vd) as [dia|]; [|left; intros i; rewrite Hval; reflexivity].
  destruct (Builtins.int vs) as [sys|]; [|left; intros i; rewrite Hval; reflexivity].
  destruct (Builtins.int vo) as [sp|]; [|left; intros i; rewrite Hval; reflexivity].
  destruct (in_range p h t dia sys sp) eqn:Hr.
  - right. exists ev, p, h, t, dia, sys, sp. split; [exact Hr|].
    intros i. rewrite Hval.
    cbn -[in_range vitals_record]. rewrite Hr. reflexivity.
  - left. intros i. rewrite Hval. cbn -[in_range vitals_record].
    rewrite Hr. reflexivity.
Qed.

(** The rows of [validate] on any value: none, or one complete record. *)
Lemma validate_rows {py : Interpreter} (i : string) (v : pyval) :
  rows_of (validate i v) = []
  ∨ ∃ row, rows_of (validate i v) = [row] ∧ complete_record row.
Proof.
  destruct (validate_shape v)
    as [Hnone | (ev & p & h & t & dia & sys & sp & Hr & Hone)].
  - left. apply Hnone.
  - right. eexists. split; [apply Hone|].
    apply vitals_record_complete, Hr.
Qed.

(** C2. Whatever the input, the validator returns, and what it returns is
    nothing or one complete record: the eight fields and no other, the
    integers and the float within their closed intervals. *)
Theorem output_is_a_complete_record {py : Interpreter} (c : Timestamp.clock)
    (message_bytes : list Byte.byte) :
  ∃ rows, process c message_bytes = Ok rows
          ∧ (length rows <= 1)%nat
          ∧ Forall complete_record rows.
Proof.
  rewrite process_rows. eexists. split; [reflexivity|].
  destruct (payload message_bytes) as [v|e]; cbn -[validate];
    [|split; [lia | constructor]].
  destruct (validate_rows (Timestamp.to_rfc3339 (Timestamp.now c)) v)
    as [-> | (row & -> & Hrow)]; cbn.
  - split; [lia | constructor].
  - split; [lia | constructor; [exact Hrow | constructor]].
Qed.

(** C5. An object that lacks one of the seven required keys yields no
    output, whatever its other keys hold. *)
Theorem missing_key_is_dropped {py : Interpreter} (c : Timestamp.clock) (message_bytes : list Byte.byte)
    (d : pydict) (k : string) :
  In k required ->
  payload message_bytes = Ok (PyDict d) ->
  d !! k = None ->
  process c message_bytes = Ok [].
Proof.
  intros Hk Hpay Hd.
  rewrite (process_payload _ _ _ Hpay), (validate_missing _ d k Hk Hd).
  reflexivity.
Qed.

(** C6. The validator never raises, and a message that is not UTF-8, or
    not JSON, or whose JSON value is not an object, yields no output. *)
Theorem malformed_message_is_dropped {py : Interpreter} (c : Timestamp.clock)
    (message_bytes : list Byte.byte) :
  (∃ rows, process c message_bytes = Ok rows)
  ∧ (not_an_object message_bytes -> process c message_bytes = Ok []).
Proof.
  split; [rewrite process_rows; eexists; reflexivity|].
  rewrite process_rows. unfold payload.
  intros [(e & ->) | [(raw & e & -> & Hl) | (raw & v & -> & Hl & Hv)]].
  - reflexivity.
  - cbn. rewrite Hl. reflexivity.
  - cbn -[validate]. rewrite Hl. cbn -[validate].
    rewrite validate_not_a_dict by exact Hv. reflexivity.
Qed.

(** ** Determinism *)



(** ** The time of the event *)

(** C10. The validator does not look at [event_ts]: whatever JSON value it
    holds, an object whose six bounded fields coerce to values within their
    intervals is accepted, and the record carries that value unchanged. *)
Theorem event_ts_is_not_inspected {py : Interpreter} (c : Timestamp.clock) (message_bytes : list Byte.byte)
    (d : pydict) (ev : pyval) (p h : Z) (t : spec_float) (dia sys sp : Z) :
  payload message_bytes = Ok (PyDict d) ->
  d !! "event_ts" = Some ev ->
  coerced_int d "patient_id" p -> 1 <= p <= 10000 ->
  coerced_int d "heart_rate" h -> 30 <= h <= 220 ->
  coerced_float d "temperature" t -> in_closed_interval 85 110 (PyFloat t) = true ->
  coerced_int d "bp_diastolic" dia -> 30 <= dia <= 150 ->
  coerced_int d "bp_systolic" sys -> 50 <= sys <= 250 ->
  coerced_int d "spo2" sp -> 50 <= sp <= 100 ->
  ∃ row, process c message_bytes = Ok [row]
         ∧ row = vitals_record ev p h t dia sys sp
                   (Timestamp.to_rfc3339 (Timestamp.now c))
         ∧ row !! "event_ts" = Some ev.
Proof.
  intros Hpay Hev Hp Hp' Hh Hh' Ht Ht' Hd Hd' Hs Hs' Ho Ho'.
  rewrite (accepted_of_coerced c _ d ev p h t dia sys sp) by assumption.
  assert (Hr : in_range p h t dia sys sp = true)
    by (apply in_range_spec; repeat split; first [assumption | lia]).
  rewrite Hr. eexists. split; [reflexivity|]. split; reflexivity.
Qed.


(** A message whose [event_ts] is an object is accepted with that object. *)
Lemma event_ts_object_accepted :
  ∃ row, process (py := Examples.python) Examples.clock Examples.event_ts_object = Ok [row]
         ∧ row !! "event_ts"
           = Some (PyDict {[ "a" := PyList [PyInt 1; PyNone] ]}).
Proof.
  set (py := Examples.python).
  pose (ev := PyDict {[ "a" := PyList [PyInt 1; PyNone] ]}).
  pose (d := <["event_ts" := ev]> Examples.end_to_end_object).
  assert (Hpay : payload Examples.event_ts_object = Ok (PyDict d))
    by (vm_compute; reflexivity).
  assert (Hev : d !! "event_ts" = Some ev) by reflexivity.
  assert (Hp : coerced_int d "patient_id" 5)
    by (exists (PyInt 5); split; reflexivity).
  assert (Hh : coerced_int d "heart_rate" 80)
    by (exists (PyInt 80); split; reflexivity).
  assert (Ht : coerced_float d "temperature" (Float.of_decimal false 986 (-1)))
    by (exists (PyFloat (Float.of_decimal false 986 (-1))); split; reflexivity).
  assert (Hd : coerced_int d "bp_diastolic" 70)
    by (exists (PyInt 70); split; reflexivity).
  assert (Hs : coerced_int d "bp_systolic" 120)
    by (exists (PyInt 120); split; reflexivity).
  assert (Ho : coerced_int d "spo2" 97)
    by (exists (PyInt 97); split; reflexivity).
  assert (Ht' : in_closed_interval 85 110 (PyFloat (Float.of_decimal false 986 (-1))) = true)
    by (vm_compute; reflexivity).
  destruct (event_ts_is_not_inspected Examples.clock _ d ev 5 80 _ 70 120 97
              Hpay Hev Hp ltac:(lia) Hh ltac:(lia) Ht Ht' Hd ltac:(lia)
              Hs ltac:(lia) Ho ltac:(lia))
    as (row & Hrow & _ & Hrow_ev).
  exists row. split; assumption.
Defined.

(** ** Boundaries *)


Lemma coerced_int_insert {py : Interpreter} (d : pydict) (k : string) (z : Z) :
  coerced_int (<[k := PyInt z]> d) k z.
Proof. exists (PyInt z). split; [apply lookup_insert_eq | reflexivity]. Qed.

Lemma coerced_float_insert (d : pydict) (k : string) (f : spec_float) :
  coerced_float (<[k := PyFloat f]> d) k f.
Proof. exists (PyFloat f). split; [apply lookup_insert_eq | reflexivity]. Qed.

Lemma coerced_int_insert_ne {py : Interpreter} (d : pydict) (k k' : string) (v : pyval) (z : Z) :
  k ≠ k' -> coerced_int d k' z -> coerced_int (<[k := v]> d) k' z.
Proof.
  intros Hne (w & Hw & Hz). exists w. split; [|exact Hz].
  rewrite lookup_insert_ne by exact Hne. exact Hw.
Qed.

Lemma coerced_float_insert_ne (d : pydict) (k k' : string) (v : pyval) (t : spec_float) :
  k ≠ k' -> coerced_float d k' t -> coerced_float (<[k := v]> d) k' t.
Proof.
  intros Hne (w & Hw & Hz). exists w. split; [|exact Hz].
  rewrite lookup_insert_ne by exact Hne. exact Hw.
Qed.

(** Solves the premises of [accepted_of_coerced] for an object that was
    changed at one key. *)
Ltac changed_field :=
  first
    [ apply lookup_insert_eq
    | apply coerced_int_insert
    | apply coerced_float_insert
    | apply coerced_int_insert_ne; [discriminate | eassumption]
    | apply coerced_float_insert_ne; [discriminate | eassumption]
    | rewrite lookup_insert_ne by discriminate; eassumption ].

(** Splits on the range checks when one field is a given number and the
    others are known to pass: the case that contradicts the known bounds is
    closed, the other is left with the bounds as hypotheses. *)
Ltac decide_in_range Hr :=
  apply in_range_spec in Hr;
  destruct Hr as (? & ? & ? & ? & ? & ?);
  match goal with
  | |- context [in_range ?p ?h ?t ?dia ?sys ?sp] =>
      let E := fresh "E" in
      destruct (in_range p h t dia sys sp) eqn:E;
      [ apply in_range_spec in E; destruct E as (? & ? & ? & ? & ? & ?)
      | try (exfalso; apply not_true_iff_false in E; apply E, in_range_spec;
             repeat split; first [assumption | lia | vm_compute; reflexivity]) ]
  end.

(** Closes what [decide_in_range] leaves. *)
Ltac boundary_case :=
  first
    [ reflexivity
    | lia
    | match goal with
      | H : in_closed_interval _ _ (PyFloat (binary_normalize _ _ _ _ _)) = true
        |- _ => vm_compute in H; discriminate H
      end
    | eexists; split; reflexivity ].

(** C4. For each bounded field, a valid record in which the field is set to
    an end of its interval is accepted (the record holds that value), and is
    dropped when the field is set one unit below the lower end or one unit
    above the upper end. *)
Theorem boundaries_are_exact {py : Interpreter} (c : Timestamp.clock) (message_bytes : list Byte.byte)
    (d : pydict) (k : string) (lo hi z : Z) :
  In (k, (lo, hi)) intervals ->
  valid_payload d ->
  payload message_bytes = Ok (PyDict (<[k := number k z]> d)) ->
  ((z = lo ∨ z = hi) ->
   ∃ row, process c message_bytes = Ok [row] ∧ row !! k = Some (number k z))
  ∧ ((z = lo - 1 ∨ z = hi + 1) -> process c message_bytes = Ok []).
Proof.
  intros Hk [[ev Hev] Hin] Hpay.
  destruct (within_intervals_fields d Hin)
    as (p & h & t & dia & sys & sp & Hp & Hh & Ht & Hd & Hs & Ho & Hr).
  unfold intervals in Hk. cbn [In] in Hk.
  destruct Hk as [Hk|[Hk|[Hk|[Hk|[Hk|[Hk|[]]]]]]];
    injection Hk as <- <- <-; cbn [number String.eqb Ascii.eqb Bool.eqb] in *.
  - rewrite (accepted_of_coerced c _ _ ev z h t dia sys sp Hpay) by changed_field.
    split; intros [-> | ->]; decide_in_range Hr; boundary_case.
  - rewrite (accepted_of_coerced c _ _ ev p z t dia sys sp Hpay) by changed_field.
    split; intros [-> | ->]; decide_in_range Hr; boundary_case.
  - rewrite (accepted_of_coerced c _ _ ev p h _ dia sys sp Hpay) by changed_field.
    split; intros [-> | ->]; decide_in_range Hr; boundary_case.
  - rewrite (accepted_of_coerced c _ _ ev p h t z sys sp Hpay) by changed_field.
    split; intros [-> | ->]; decide_in_range Hr; boundary_case.
  - rewrite (accepted_of_coerced c _ _ ev p h t dia z sp Hpay) by changed_field.
    split; intros [-> | ->]; decide_in_range Hr; boundary_case.
  - rewrite (accepted_of_coerced c _ _ ev p h t dia sys z Hpay) by changed_field.
    split; intros [-> | ->]; decide_in_range Hr; boundary_case.
Qed.

(** ** Instances of the theorems above *)

(** The heart rate at the upper end of its interval is accepted, and one
    beat above it is dropped. *)
Lemma heart_rate_boundary :
  (∃ row, process (py := Examples.python) Examples.clock Examples.heart_rate_220 = Ok [row]
          ∧ row !! "heart_rate" = Some (PyInt 220))
  ∧ process (py := Examples.python) Examples.clock Examples.heart_rate_221 = Ok [].
Proof.
  set (py := Examples.python).
  assert (Hk : In ("heart_rate", (30, 220)) intervals)
    by (cbn; auto).
  assert (Hval : valid_payload Examples.end_to_end_object)
    by (split; [eexists; reflexivity | vm_compute; reflexivity]).
  assert (H220 : payload Examples.heart_rate_220
                 = Ok (PyDict (<["heart_rate" := number "heart_rate" 220]>
                                 Examples.end_to_end_object)))
    by (vm_compute; reflexivity).
  assert (H221 : payload Examples.heart_rate_221
                 = Ok (PyDict (<["heart_rate" := number "heart_rate" 221]>
                                 Examples.end_to_end_object)))
    by (vm_compute; reflexivity).
  split.
  - apply (boundaries_are_exact Examples.clock _ _ _ _ _ _ Hk Hval H220).
    right. reflexivity.
  - apply (boundaries_are_exact Examples.clock _ _ _ _ _ _ Hk Hval H221).
    right. reflexivity.
Defined.

(** The end-to-end message without its heart rate is dropped. *)
Lemma heart_rate_missing_dropped :
  process (py := Examples.python) Examples.clock Examples.heart_rate_missing = Ok [].
Proof.
  set (py := Examples.python).
  apply (missing_key_is_dropped Examples.clock _
           (delete "heart_rate" Examples.end_to_end_object) "heart_rate").
  - cbn; auto.
  - vm_compute; reflexivity.
  - reflexivity.
Defined.

(** An array that holds the seven required names is no object, and is
    dropped: the membership tests pass, subscripting it by a name raises. *)
Lemma array_of_names_dropped :
  not_an_object (py := Examples.python) Examples.array_of_names
  ∧ process (py := Examples.python) Examples.clock Examples.array_of_names = Ok [].
Proof.
  set (py := Examples.python).
  assert (H : not_an_object Examples.array_of_names).
  { right. right. do 2 eexists.
    split; [vm_compute; reflexivity|]. split; [vm_compute; reflexivity|].
    intros d. discriminate. }
  split; [exact H|].
  exact (proj2 (malformed_message_is_dropped Examples.clock _) H).
Defined.

(** ** Coercion failures *)

(** An object one of whose bounded fields does not coerce yields nothing. *)
Lemma validate_coercion_fails {py : Interpreter} (i : string) (d : pydict) :
  coercion_fails d -> rows_of (validate i (PyDict d)) = [].
Proof.
  intros Hfail.
  destruct (d !! "event_ts") as [ev|] eqn:Hev;
    [|rewrite (validate_missing i d "event_ts"); cbn; auto].
  destruct (d !! "patient_id") as [vp|] eqn:Hvp;
    [|rewrite (validate_missing i d "patient_id"); cbn; auto 10].
  destruct (d !! "heart_rate") as [vh|] eqn:Hvh;
    [|rewrite (validate_missing i d "heart_rate"); cbn; auto 10].
  destruct (d !! "temperature") as [vt|] eqn:Hvt;
    [|rewrite (validate_missing i d "temperature"); cbn; auto 10].
  destruct (d !! "bp_diastolic") as [vd|] eqn:Hvd;
    [|rewrite (validate_missing i d "bp_diastolic"); cbn; auto 10].
  destruct (d !! "bp_systolic") as [vs|] eqn:Hvs;
    [|rewrite (validate_missing i d "bp_systolic"); cbn; auto 10].
  destruct (d !! "spo2") as [vo|] eqn:Hvo;
    [|rewrite (validate_missing i d "spo2"); cbn; auto 10].
  rewrite (validate_present _ _ _ _ _ _ _ _ _ Hev Hvp Hvh Hvt Hvd Hvs Hvo).
  assert (Hone : (∃ e, Builtins.int vp = Raise e) ∨ (∃ e, Builtins.int vh = Raise e)
                 ∨ (∃ e, Builtins.float vt = Raise e) ∨ (∃ e, Builtins.int vd = Raise e)
                 ∨ (∃ e, Builtins.int vs = Raise e) ∨ (∃ e, Builtins.int vo = Raise e)).
  { destruct Hfail as [(k & v & e & Hk & Hv & He) | (v & e & Hv & He)].
    - unfold int_fields in Hk. cbn [In] in Hk.
      destruct Hk as [<-|[<-|[<-|[<-|[<-|[]]]]]];
        rewrite Hv in *;
        match goal with H : Some _ = Some _ |- _ => injection H as -> end;
        eauto 10.
    - rewrite Hv in Hvt. injection Hvt as ->. eauto 10. }
  destruct (Builtins.int vp) as [p|]; [|reflexivity].
  destruct (Builtins.int vh) as [h|]; [|reflexivity].
  destruct (Builtins.float vt) as [t|]; [|reflexivity].
  destruct (Builtins.int vd) as [dia|]; [|reflexivity].
  destruct (Builtins.int vs) as [sys|]; [|reflexivity].
  destruct (Builtins.int vo) as [sp|]; [|reflexivity].
  exfalso.
  destruct Hone as [(e & H)|[(e & H)|[(e & H)|[(e & H)|[(e & H)|(e & H)]]]]];
    discriminate H.
Qed.

(** A record that [validate] yields for an object carries the [event_ts]
    of the object. *)
Lemma validate_event_ts {py : Interpreter} (i : string) (d : pydict) (row : pydict) :
  rows_of (validate i (PyDict d)) = [row] ->
  row !! "event_ts" = d !! "event_ts".
Proof.
  destruct (d !! "event_ts") as [ev|] eqn:Hev;
    [|rewrite (validate_missing i d "event_ts"); cbn; auto; discriminate].
  destruct (d !! "patient_id") as [vp|] eqn:Hvp;
    [|rewrite (validate_missing i d "patient_id"); cbn; auto 10; discriminate].
  destruct (d !! "heart_rate") as [vh|] eqn:Hvh;
    [|rewrite (validate_missing i d "heart_rate"); cbn; auto 10; discriminate].
  destruct (d !! "temperature") as [vt|] eqn:Hvt;
    [|rewrite (validate_missing i d "temperature"); cbn; auto 10; discriminate].
  destruct (d !! "bp_diastolic") as [vd|] eqn:Hvd;
    [|rewrite (validate_missing i d "bp_diastolic"); cbn; auto 10; discriminate].
  destruct (d !! "bp_systolic") as [vs|] eqn:Hvs;
    [|rewrite (validate_missing i d "bp_systolic"); cbn; auto 10; discriminate].
  destruct (d !! "spo2") as [vo|] eqn:Hvo;
    [|rewrite (validate_missing i d "spo2"); cbn; auto 10; discriminate].
  rewrite (validate_present _ _ _ _ _ _ _ _ _ Hev Hvp Hvh Hvt Hvd Hvs Hvo).
  destruct (Builtins.int vp) as [p|]; [|discriminate].
  destruct (Builtins.int vh) as [h|]; [|discriminate].
  destruct (Builtins.float vt) as [t|]; [|discriminate].
  destruct (Builtins.int vd) as [dia|]; [|discriminate].
  destruct (Builtins.int vs) as [sys|]; [|discriminate].
  destruct (Builtins.int vo) as [sp|]; [|discriminate].
  cbn -[in_range vitals_record].
  destruct (in_range p h t dia sys sp); [|discriminate].
  intros [= <-]. reflexivity.
Qed.

(** C3, as the code has it. When the coercion of one of the five integer
    fields to an integer, or of the temperature to a float, raises, the
    validator returns no output; [null] and a str that is no number, such as
    [one-sixty], make it raise.  A boolean does not: [int] and [float] take
    [true] as 1 and [false] as 0, and the range checks decide.  [event_ts]
    is not coerced: an accepted record carries it as the object has it. *)
Theorem coercion_failure_is_dropped {py : Interpreter} :
  (∀ (c : Timestamp.clock) (message_bytes : list Byte.byte) (d : pydict),
     payload message_bytes = Ok (PyDict d) ->
     coercion_fails d ->
     process c message_bytes = Ok [])
  ∧ (∀ (c : Timestamp.clock) (message_bytes : list Byte.byte) (d row : pydict),
       payload message_bytes = Ok (PyDict d) ->
       process c message_bytes = Ok [row] ->
       row !! "event_ts" = d !! "event_ts")
  ∧ Builtins.int PyNone = Raise TypeError
  ∧ Builtins.float PyNone = Raise TypeError
  ∧ Builtins.int (PyStr "one-sixty") = Raise ValueError
  ∧ Builtins.float (PyStr "one-sixty") = Raise ValueError
  ∧ (∀ b : bool, Builtins.int (PyBool b) = Ok (if b then 1 else 0))
  ∧ (∀ b : bool, Builtins.float (PyBool b) = Float.of_int (if b then 1 else 0)).
Proof.
  split; [|split].
  - intros c bs d Hpay Hfail.
    rewrite (process_payload _ _ _ Hpay), validate_coercion_fails by exact Hfail.
    reflexivity.
  - intros c bs d row Hpay Hrow.
    rewrite (process_payload _ _ _ Hpay) in Hrow. injection Hrow as Hrow.
    exact (validate_event_ts _ _ _ Hrow).
  - repeat split; try (vm_compute; reflexivity); intros []; reflexivity.
Qed.

(** A message whose oxygen saturation is [null] is dropped. *)
Lemma spo2_null_dropped : process (py := Examples.python) Examples.clock Examples.spo2_null = Ok [].
Proof.
  set (py := Examples.python).
  apply (proj1 coercion_failure_is_dropped Examples.clock _
           (<["spo2" := PyNone]> Examples.end_to_end_object)).
  - vm_compute; reflexivity.
  - left. exists "spo2", PyNone, TypeError.
    split; [cbn; auto 10|]. split; reflexivity.
Defined.

(** The claim C3 fails for a boolean: the message whose patient is [true]
    is accepted, as patient 1. *)
Lemma boolean_patient_is_accepted :
  payload (py := Examples.python) Examples.patient_id_true = Ok (PyDict Examples.patient_id_true_object)
  ∧ Examples.patient_id_true_object !! "patient_id" = Some (PyBool true)
  ∧ process (py := Examples.python) Examples.clock Examples.patient_id_true
    = Ok [vitals_record (PyStr "2024-01-01T00:00:00Z") 1 80
            (Float.of_decimal false 986 (-1)) 70 120 97
            "2024-01-01T00:00:05.000250Z"].
Proof.
  set (py := Examples.python).
  split; [vm_compute; reflexivity|]. split; [reflexivity|].
  vm_compute; reflexivity.
Qed.

(** ** The injected errors *)

Lemma choice_in {A : Type} (seq : list A) (st st' : random.state) (x : A) :
  random.choice seq st = Ok (x, st') -> In x seq.
Proof.
  unfold random.choice.
  destruct (seq !! _) as [y|] eqn:Hy; [|discriminate].
  intros [= <- _]. apply list_elem_of_In. eapply list_elem_of_lookup_2, Hy.
Qed.

(** What [inject_error] does to the record, for a mode that [main] lets
    through and that is not [none]: one required field is deleted or set to
    [null], or one of the three fixed changes is made. *)
Lemma inject_error_cases (record record' : pydict) (error_mode style : string)
    (st st' : random.state) :
  In error_mode patient_vitals.error_modes ->
  error_mode ≠ "none" ->
  patient_vitals.inject_error record error_mode style st = Ok (record', st') ->
  (∃ k, In k patient_vitals.required_fields ∧ record' = delete k record)
  ∨ (∃ k, In k patient_vitals.required_fields ∧ record' = <[k := PyNone]> record)
  ∨ record' = <["heart_rate" := PyInt (-1)]> record
  ∨ record' = <["spo2" := PyInt 150]> record
  ∨ record' = <["bp_systolic" := PyStr "one-sixty"]> record.
Proof.
  intros Hmode Hnone.
  assert (Hfixed : ∀ mode st0,
    In mode patient_vitals.modes ->
    (if String.eqb mode "missing_field" then
       '(field, st) ← random.choice patient_vitals.required_fields st0;
       if String.eqb style "delete"
       then Ok (delete field record, st)
       else Ok (<[field := PyNone]> record, st)
     else if String.eqb mode "null_field" then
       '(field, st) ← random.choice patient_vitals.required_fields st0;
       Ok (<[field := PyNone]> record, st)
     else if String.eqb mode "negative_value" then
       Ok (<["heart_rate" := PyInt (-1)]> record, st0)
     else if String.eqb mode "out_of_range" then
       Ok (<["spo2" := PyInt 150]> record, st0)
     else if String.eqb mode "bad_type" then
       Ok (<["bp_systolic" := PyStr "one-sixty"]> record, st0)
     else Ok (record, st0)) = Ok (record', st') ->
    (∃ k, In k patient_vitals.required_fields ∧ record' = delete k record)
    ∨ (∃ k, In k patient_vitals.required_fields ∧ record' = <[k := PyNone]> record)
    ∨ record' = <["heart_rate" := PyInt (-1)]> record
    ∨ record' = <["spo2" := PyInt 150]> record
    ∨ record' = <["bp_systolic" := PyStr "one-sixty"]> record).
  { intros mode st0 Hin. unfold patient_vitals.modes in Hin. cbn [In] in Hin.
    destruct Hin as [<-|[<-|[<-|[<-|[<-|[]]]]]]; cbn [String.eqb Ascii.eqb Bool.eqb].
    - destruct (random.choice _ st0) as [[field st1]|] eqn:Hc; [|discriminate].
      apply choice_in in Hc. cbn.
      destruct (String.eqb style "delete"); intros [= <- _];
        [left | right; left]; exists field; split; [exact Hc | reflexivity
                                                   | exact Hc | reflexivity].
    - destruct (random.choice _ st0) as [[field st1]|] eqn:Hc; [|discriminate].
      apply choice_in in Hc. cbn. intros [= <- _].
      right; left. exists field. split; [exact Hc | reflexivity].
    - intros [= <- _]; auto 10.
    - intros [= <- _]; auto 10.
    - intros [= <- _]; auto 10. }
  unfold patient_vitals.inject_error, patient_vitals.error_modes in *.
  cbn [In] in Hmode.
  destruct Hmode as [<-|[<-|[<-|[<-|[<-|[<-|[<-|[]]]]]]]];
    cbn [String.eqb Ascii.eqb Bool.eqb].
  - destruct (random.choice patient_vitals.modes st) as [[mode st1]|] eqn:Hc;
      [|discriminate].
    apply choice_in in Hc. cbn -[String.eqb]. apply Hfixed, Hc.
  - contradiction.
  - apply (Hfixed "missing_field" st). cbn; auto 10.
  - apply (Hfixed "null_field" st). cbn; auto 10.
  - apply (Hfixed "negative_value" st). cbn; auto 10.
  - apply (Hfixed "out_of_range" st). cbn; auto 10.
  - apply (Hfixed "bad_type" st). cbn; auto 10.
Qed.

(** ** The validator on injected errors *)


(** A key that is not required is ignored. *)
Lemma validate_extra_key {py : Interpreter} (i : string) (d : pydict) (k : string) (v : pyval) :
  ¬ In k required ->
  validate i (PyDict (<[k := v]> d)) = validate i (PyDict d).
Proof.
  intros Hk.
  assert (Hne : ∀ k', In k' required -> <[k := v]> d !! k' = d !! k').
  { intros k' Hk'. apply lookup_insert_ne. intros ->. contradiction. }
  unfold validate. rewrite !all_in_dict.
  cbn [forallb required Builtins.getitem].
  rewrite !Hne by (cbn; auto 10). reflexivity.
Qed.

(** The validator on an object whose fields coerce. *)
Lemma validate_coerced {py : Interpreter} (i : string) (d : pydict) (ev : pyval) (p h : Z)
    (t : spec_float) (dia sys sp : Z) :
  d !! "event_ts" = Some ev ->
  coerced_int d "patient_id" p ->
  coerced_int d "heart_rate" h ->
  coerced_float d "temperature" t ->
  coerced_int d "bp_diastolic" dia ->
  coerced_int d "bp_systolic" sys ->
  coerced_int d "spo2" sp ->
  validate i (PyDict d)
  = Ok (if in_range p h t dia sys sp
        then [vitals_record ev p h t dia sys sp i] else []).
Proof.
  intros Hev (vp & Hvp & Hp) (vh & Hvh & Hh) (vt & Hvt & Ht)
    (vd & Hvd & Hd) (vs & Hvs & Hs) (vo & Hvo & Ho).
  rewrite (validate_present _ _ _ _ _ _ _ _ _ Hev Hvp Hvh Hvt Hvd Hvs Hvo).
  rewrite Hp, Hh, Ht, Hd, Hs, Ho. reflexivity.
Qed.

(** The validator on a valid record after each change [inject_error] can
    make: dropped, except when [event_ts] is set to [null]. *)
Lemma validate_injected {py : Interpreter} (i : string) (record record' : pydict) :
  valid_payload record ->
  ((∃ k, In k patient_vitals.required_fields ∧ record' = delete k record)
   ∨ (∃ k, In k patient_vitals.required_fields ∧ record' = <[k := PyNone]> record)
   ∨ record' = <["heart_rate" := PyInt (-1)]> record
   ∨ record' = <["spo2" := PyInt 150]> record
   ∨ record' = <["bp_systolic" := PyStr "one-sixty"]> record) ->
  rows_of (validate i (PyDict record')) = []
  ∨ (record' = <["event_ts" := PyNone]> record
     ∧ ∃ row, rows_of (validate i (PyDict record')) = [row]
              ∧ row !! "event_ts" = Some PyNone).
Proof.
  intros [[ev Hev] Hin] Hcase.
  destruct (within_intervals_fields record Hin)
    as (p & h & t & dia & sys & sp & Hp & Hh & Ht & Hd & Hs & Ho & Hr).
  destruct Hcase as [(k & Hk & ->) | [(k & Hk & ->) | [-> | [-> | ->]]]].
  - left. rewrite (validate_missing i _ k); [reflexivity | | apply lookup_delete_eq].
    unfold patient_vitals.required_fields in Hk. cbn [In] in Hk.
    destruct Hk as [<-|[<-|[<-|[<-|[<-|[<-|[<-|[]]]]]]]]; cbn; auto 10.
  - unfold patient_vitals.required_fields in Hk. cbn [In] in Hk.
    destruct Hk as [<-|[<-|[<-|[<-|[<-|[<-|[<-|[]]]]]]]].
    2:{ right. split; [reflexivity|].
        rewrite (validate_coerced i _ PyNone p h t dia sys sp)
          by changed_field.
        rewrite Hr. eexists. split; reflexivity. }
    all: left; apply validate_coercion_fails.
    all: first
      [ right; exists PyNone, TypeError;
        split; [apply lookup_insert_eq | reflexivity]
      | left; eexists _, PyNone, TypeError;
        split; [|split; [apply lookup_insert_eq | reflexivity]];
        cbn; auto 10 ].
  - left.
    rewrite (validate_coerced i _ ev p (-1) t dia sys sp) by changed_field.
    destruct (in_range p (-1) t dia sys sp) eqn:E; [|reflexivity].
    apply in_range_spec in E. lia.
  - left.
    rewrite (validate_coerced i _ ev p h t dia sys 150) by changed_field.
    destruct (in_range p h t dia sys 150) eqn:E; [|reflexivity].
    apply in_range_spec in E. lia.
  - left. apply validate_coercion_fails. left.
    exists "bp_systolic", (PyStr "one-sixty"), ValueError.
    split; [cbn; auto 10|]. split; [apply lookup_insert_eq | vm_compute; reflexivity].
Qed.

(** C7, as the code has it. A valid payload into which the generator
    injects an error (any mode but [none], any style, any random choice) and
    which it flags and publishes yields no output, with one exception: when
    what was injected is a [null] as [event_ts], the payload is accepted,
    with [null] as its [event_ts].  Both halves are stated: every other
    published payload is dropped, and that one is accepted. *)
Theorem injected_error_is_dropped {py : Interpreter} (c : Timestamp.clock)
    (message_bytes : list Byte.byte) (record published : pydict)
    (error_mode style : string) (st st' : random.state) :
  valid_payload record ->
  In error_mode patient_vitals.error_modes ->
  error_mode ≠ "none" ->
  patient_vitals.with_injected_error record error_mode style st
    = Ok (published, st') ->
  payload message_bytes = Ok (PyDict published) ->
  (published ≠ <["_is_error" := PyBool true]> (<["event_ts" := PyNone]> record) ->
   process c message_bytes = Ok [])
  ∧ (published = <["_is_error" := PyBool true]> (<["event_ts" := PyNone]> record) ->
     ∃ row, process c message_bytes = Ok [row]
            ∧ row !! "event_ts" = Some PyNone).
Proof.
  intros Hval Hmode Hnone Hinj Hpay.
  unfold patient_vitals.with_injected_error in Hinj.
  destruct (patient_vitals.inject_error record error_mode style st)
    as [[record' st1]|] eqn:Hrec; [|discriminate].
  cbn in Hinj. injection Hinj as <- <-.
  rewrite (process_payload _ _ _ Hpay).
  rewrite validate_extra_key by (cbn; intuition discriminate).
  pose proof (inject_error_cases _ _ _ _ _ _ Hmode Hnone Hrec) as Hcase.
  split.
  - intros Hne.
    destruct (validate_injected (Timestamp.to_rfc3339 (Timestamp.now c))
                record record' Hval Hcase) as [-> | (-> & _)];
      [reflexivity | contradiction].
  - intros Heq. rewrite <- (validate_extra_key _ record' "_is_error" (PyBool true))
      by (cbn; intuition discriminate).
    rewrite Heq. rewrite validate_extra_key by (cbn; intuition discriminate).
    destruct Hval as [[ev Hev] Hin].
    destruct (within_intervals_fields record Hin)
      as (p & h & t & dia & sys & sp & Hp & Hh & Ht & Hd & Hs & Ho & Hr).
    rewrite (validate_coerced _ _ PyNone p h t dia sys sp) by changed_field.
    rewrite Hr. eexists. split; reflexivity.
Qed.

(** The end-to-end payload after [null_field] has picked [spo2] is
    dropped. *)
Lemma spo2_nulled_dropped :
  process (py := Examples.python) Examples.clock Examples.spo2_null_flagged = Ok [].
Proof.
  set (py := Examples.python).
  assert (Hval : valid_payload Examples.end_to_end_object)
    by (split; [eexists; reflexivity | vm_compute; reflexivity]).
  assert (Hmode : In "null_field" patient_vitals.error_modes) by (cbn; auto 10).
  assert (Hnone : "null_field" ≠ "none") by discriminate.
  assert (Hinj : patient_vitals.with_injected_error Examples.end_to_end_object
                   "null_field" "delete" (Examples.always 6)
                 = Ok (Examples.spo2_nulled,
                       {| random.draws := fun _ => 6%nat; random.drawn := 1 |}))
    by reflexivity.
  assert (Hpay : payload Examples.spo2_null_flagged = Ok (PyDict Examples.spo2_nulled))
    by (vm_compute; reflexivity).
  apply (injected_error_is_dropped Examples.clock _ _ _ _ _ _ _
           Hval Hmode Hnone Hinj Hpay).
  intros H. apply (f_equal (fun m : pydict => m !! "spo2")) in H.
  vm_compute in H. discriminate H.
Defined.

(** The claim C7 fails when the field set to [null] is [event_ts]: the
    generator's [null_field] mode, picking the second required field of the
    end-to-end payload, makes a payload that the validator accepts. *)
Lemma null_event_ts_is_accepted :
  patient_vitals.with_injected_error Examples.end_to_end_object
    "null_field" "delete" (Examples.always 1)
  = Ok (Examples.event_ts_nulled,
        {| random.draws := fun _ => 1%nat; random.drawn := 1 |})
  ∧ payload (py := Examples.python) Examples.event_ts_null = Ok (PyDict Examples.event_ts_nulled)
  ∧ process (py := Examples.python) Examples.clock Examples.event_ts_null
    = Ok [vitals_record PyNone 5 80 (Float.of_decimal false 986 (-1)) 70 120 97
            "2024-01-01T00:00:05.000250Z"].
Proof.
  set (py := Examples.python).
  split; [reflexivity|]. split; vm_compute; reflexivity.
Qed.

(** ** Start-up of the generator *)


(** ** More on the validator *)

(** The validator reads the seven required keys of an object and nothing
    else. *)
Lemma validate_agree {py : Interpreter} (i : string) (d1 d2 : pydict) :
  (∀ k, In k required -> d1 !! k = d2 !! k) ->
  validate i (PyDict d1) = validate i (PyDict d2).
Proof.
  intros Hk. unfold validate. rewrite !all_in_dict.
  cbn [forallb required Builtins.getitem].
  rewrite !Hk by (cbn; auto 10). reflexivity.
Qed.

(** Two messages whose objects agree on the seven required keys get the
    same outcome: the order of the keys, the blanks between them and any
    other key make no difference. *)
Theorem outcome_depends_on_required_keys {py : Interpreter} (c : Timestamp.clock)
    (message1 message2 : list Byte.byte) (d1 d2 : pydict) :
  payload message1 = Ok (PyDict d1) ->
  payload message2 = Ok (PyDict d2) ->
  (∀ k, In k required -> d1 !! k = d2 !! k) ->
  process c message1 = process c message2.
Proof.
  intros H1 H2 Hk.
  rewrite (process_payload _ _ _ H1), (process_payload _ _ _ H2).
  rewrite (validate_agree _ d1 d2 Hk). reflexivity.
Qed.

(** The end-to-end message and its reordered, extended form get the same
    outcome. *)
Lemma end_to_end_extended_same :
  process (py := Examples.python) Examples.clock Examples.end_to_end
  = process (py := Examples.python) Examples.clock Examples.end_to_end_extended.
Proof.
  set (py := Examples.python).
  eapply outcome_depends_on_required_keys.
  - vm_compute; reflexivity.
  - vm_compute; reflexivity.
  - intros k Hk. cbn [In required] in Hk.
    destruct Hk as [<-|[<-|[<-|[<-|[<-|[<-|[<-|[]]]]]]]]; vm_compute; reflexivity.
Defined.

(** A message is accepted exactly when it is an object with the seven
    required keys whose six bounded fields coerce to values within their
    intervals, and the record is then made of [event_ts] as it is, those
    values, and the time stamp. *)
Theorem accepted_iff {py : Interpreter} (c : Timestamp.clock) (message_bytes : list Byte.byte)
    (row : pydict) :
  process c message_bytes = Ok [row]
  ↔ ∃ d ev p h t dia sys sp,
      payload message_bytes = Ok (PyDict d)
      ∧ d !! "event_ts" = Some ev
      ∧ coerced_int d "patient_id" p ∧ 1 <= p <= 10000
      ∧ coerced_int d "heart_rate" h ∧ 30 <= h <= 220
      ∧ coerced_float d "temperature" t
      ∧ in_closed_interval 85 110 (PyFloat t) = true
      ∧ coerced_int d "bp_diastolic" dia ∧ 30 <= dia <= 150
      ∧ coerced_int d "bp_systolic" sys ∧ 50 <= sys <= 250
      ∧ coerced_int d "spo2" sp ∧ 50 <= sp <= 100
      ∧ row = vitals_record ev p h t dia sys sp
                (Timestamp.to_rfc3339 (Timestamp.now c)).
Proof.
  split.
  - rewrite process_rows.
    destruct (payload message_bytes) as [v|e]; [|discriminate].
    cbn -[validate]. intros [= Hrow].
    destruct v as [| | | | | |d];
      try (rewrite validate_not_a_dict in Hrow by (intros ?; discriminate);
           discriminate).
    revert Hrow.
    destruct (d !! "event_ts") as [ev|] eqn:Hev;
      [|rewrite (validate_missing _ d "event_ts"); cbn; auto; discriminate].
    destruct (d !! "patient_id") as [vp|] eqn:Hvp;
      [|rewrite (validate_missing _ d "patient_id"); cbn; auto 10; discriminate].
    destruct (d !! "heart_rate") as [vh|] eqn:Hvh;
      [|rewrite (validate_missing _ d "heart_rate"); cbn; auto 10; discriminate].
    destruct (d !! "temperature") as [vt|] eqn:Hvt;
      [|rewrite (validate_missing _ d "temperature"); cbn; auto 10; discriminate].
    destruct (d !! "bp_diastolic") as [vd|] eqn:Hvd;
      [|rewrite (validate_missing _ d "bp_diastolic"); cbn; auto 10; discriminate].
    destruct (d !! "bp_systolic") as [vs|] eqn:Hvs;
      [|rewrite (validate_missing _ d "bp_systolic"); cbn; auto 10; discriminate].
    destruct (d !! "spo2") as [vo|] eqn:Hvo;
      [|rewrite (validate_missing _ d "spo2"); cbn; auto 10; discriminate].
    rewrite (validate_present _ _ _ _ _ _ _ _ _ Hev Hvp Hvh Hvt Hvd Hvs Hvo).
    destruct (Builtins.int vp) as [p|] eqn:Hp; [|discriminate].
    destruct (Builtins.int vh) as [h|] eqn:Hh; [|discriminate].
    destruct (Builtins.float vt) as [t|] eqn:Ht; [|discriminate].
    destruct (Builtins.int vd) as [dia|] eqn:Hd; [|discriminate].
    destruct (Builtins.int vs) as [sys|] eqn:Hs; [|discriminate].
    destruct (Builtins.int vo) as [sp|] eqn:Ho; [|discriminate].
    cbn -[in_range vitals_record].
    destruct (in_range p h t dia sys sp) eqn:Hr; [|discriminate].
    intros [= <-].
    apply in_range_spec in Hr as (? & ? & ? & ? & ? & ?).
    exists d, ev, p, h, t, dia, sys, sp.
    split; [reflexivity|]. split; [exact Hev|].
    split; [exists vp; auto|]. split; [assumption|].
    split; [exists vh; auto|]. split; [assumption|].
    split; [exists vt; auto|]. split; [assumption|].
    split; [exists vd; auto|]. split; [assumption|].
    split; [exists vs; auto|]. split; [assumption|].
    split; [exists vo; auto|]. split; [assumption|].
    reflexivity.
  - intros (d & ev & p & h & t & dia & sys & sp & Hpay & Hev & Hp & Hp' & Hh & Hh'
            & Ht & Ht' & Hd & Hd' & Hs & Hs' & Ho & Ho' & ->).
    rewrite (accepted_of_coerced c _ d ev p h t dia sys sp) by assumption.
    assert (Hr : in_range p h t dia sys sp = true)
      by (apply in_range_spec; repeat split; first [assumption | lia]).
    rewrite Hr. reflexivity.
Qed.

(** ** Floats in the integer fields *)

Lemma xle_fin_iff (m1 e1 m2 e2 : Z) :
  Float.xle (Float.XFin m1 e1) (Float.XFin m2 e2) = true
  ↔ m1 * 2 ^ (e1 - Z.min e1 e2) <= m2 * 2 ^ (e2 - Z.min e1 e2).
Proof.
  unfold Float.xle. cbn [Float.xcompare].
  destruct (Z.compare_spec (m1 * 2 ^ (e1 - Z.min e1 e2))
                           (m2 * 2 ^ (e2 - Z.min e1 e2)));
    split; intros; first [lia | reflexivity | discriminate].
Qed.

(** [int(f)] lands in an interval of integers that starts above zero
    exactly when [f] is at least its lower end and less than one above its
    upper end. *)
Lemma trunc_window (lo hi : Z) (f : spec_float) :
  1 <= lo ->
  truncates_into lo hi f = true
  ↔ ∃ z, Float.trunc f = Ok z ∧ lo <= z <= hi.
Proof.
  intros Hlo. unfold truncates_into.
  destruct f as [s|s| |s m e]; cbn [Float.value Float.trunc].
  - rewrite andb_true_iff, xle_fin_iff. cbn. split.
    + intros [H _]. lia.
    + intros (z & [= <-] & H). lia.
  - split; [|intros (z & H & _); discriminate].
    destruct s; cbn; discriminate.
  - split; [discriminate | intros (z & H & _); discriminate].
  - rewrite andb_true_iff, negb_true_iff, <- not_true_iff_false, !xle_fin_iff.
    destruct (Z.leb_spec 0 e) as [He|He].
    + rewrite !(Z.min_l 0 e) by lia.
      rewrite ?Z.sub_0_r, ?Z.sub_diag, ?Z.pow_0_r, ?Z.mul_1_r.
      assert (Hp : 0 < 2 ^ e) by (apply pow2_pos; lia).
      destruct s; cbn [cond_Zopp]; split.
      * intros [H1 H2]. exfalso. nia.
      * intros (z & [= <-] & H). exfalso. nia.
      * intros [H1 H2]. eexists. split; [reflexivity|]. lia.
      * intros (z & [= <-] & H). lia.
    + rewrite !(Z.min_r 0 e) by lia.
      rewrite ?Z.sub_0_l, ?Z.sub_diag, ?Z.pow_0_r, ?Z.mul_1_r.
      assert (Hp : 0 < 2 ^ (- e)) by (apply pow2_pos; lia).
      destruct s; cbn [cond_Zopp]; split.
      * intros [H1 H2]. exfalso. nia.
      * intros (z & [= <-] & H).
        assert (0 <= Z.pos m / 2 ^ (- e)) by (apply Z.div_pos; lia). lia.
      * intros [H1 H2]. eexists. split; [reflexivity|]. split.
        -- apply Z.div_le_lower_bound; lia.
        -- apply Z.lt_succ_r. apply Z.div_lt_upper_bound; lia.
      * intros (z & [= <-] & H1 & H2). split.
        -- pose proof (Z.mul_div_le (Z.pos m) (2 ^ (- e)) Hp). nia.
        -- pose proof (Z.mul_succ_div_gt (Z.pos m) (2 ^ (- e)) Hp). nia.
Qed.

(** ** Floats in the integer fields, at the validator *)

Lemma coerced_int_insert_float {py : Interpreter} (d : pydict) (k : string) (f : spec_float) (z : Z) :
  Float.trunc f = Ok z -> coerced_int (<[k := PyFloat f]> d) k z.
Proof. intros H. exists (PyFloat f). split; [apply lookup_insert_eq | exact H]. Qed.

(** Solves the premises of [accepted_of_coerced] for an object one integer
    field of which was set to a float that truncates. *)
Ltac float_field H :=
  first [ apply (coerced_int_insert_float _ _ _ _ H) | changed_field ].

(** An integer field that holds a float is truncated, not refused: a valid
    record in which such a field is set to a float is accepted, with the
    integer part of the float, when the float is at least the lower end of
    the interval and less than one above its upper end, and is dropped
    otherwise. *)
Theorem float_in_integer_field {py : Interpreter} (c : Timestamp.clock) (message_bytes : list Byte.byte)
    (d : pydict) (k : string) (lo hi : Z) (f : spec_float) :
  In (k, (lo, hi)) intervals ->
  k ≠ "temperature" ->
  valid_payload d ->
  payload message_bytes = Ok (PyDict (<[k := PyFloat f]> d)) ->
  if truncates_into lo hi f
  then ∃ z row, Float.trunc f = Ok z ∧ lo <= z <= hi
                ∧ process c message_bytes = Ok [row]
                ∧ row !! k = Some (PyInt z)
  else process c message_bytes = Ok [].
Proof.
  intros Hk Htemp [[ev Hev] Hin] Hpay.
  destruct (within_intervals_fields d Hin)
    as (p & h & t & dia & sys & sp & Hp & Hh & Ht & Hd & Hs & Ho & Hr).
  assert (Hlo : 1 <= lo).
  { unfold intervals in Hk. cbn [In] in Hk.
    destruct Hk as [Hk|[Hk|[Hk|[Hk|[Hk|[Hk|[]]]]]]]; injection Hk as <- <- <-; lia. }
  pose proof (trunc_window lo hi f Hlo) as Hwin.
  destruct (truncates_into lo hi f).
  - destruct (proj1 Hwin eq_refl) as (z & Hz & Hzr).
    exists z. unfold intervals in Hk. cbn [In] in Hk.
    destruct Hk as [Hk|[Hk|[Hk|[Hk|[Hk|[Hk|[]]]]]]];
      injection Hk as <- <- <-; try contradiction.
    + rewrite (accepted_of_coerced c _ _ ev z h t dia sys sp Hpay) by float_field Hz.
      decide_in_range Hr. eexists. repeat split; first [exact Hz | lia | reflexivity].
    + rewrite (accepted_of_coerced c _ _ ev p z t dia sys sp Hpay) by float_field Hz.
      decide_in_range Hr. eexists. repeat split; first [exact Hz | lia | reflexivity].
    + rewrite (accepted_of_coerced c _ _ ev p h t z sys sp Hpay) by float_field Hz.
      decide_in_range Hr. eexists. repeat split; first [exact Hz | lia | reflexivity].
    + rewrite (accepted_of_coerced c _ _ ev p h t dia z sp Hpay) by float_field Hz.
      decide_in_range Hr. eexists. repeat split; first [exact Hz | lia | reflexivity].
    + rewrite (accepted_of_coerced c _ _ ev p h t dia sys z Hpay) by float_field Hz.
      decide_in_range Hr. eexists. repeat split; first [exact Hz | lia | reflexivity].
  - assert (Hno : ∀ z, Float.trunc f = Ok z -> ¬ lo <= z <= hi).
    { intros z Hz Hzr. assert (false = true) by (apply Hwin; eauto). discriminate. }
    destruct (Float.trunc f) as [z|e] eqn:Hz.
    + specialize (Hno z eq_refl).
      unfold intervals in Hk. cbn [In] in Hk.
      destruct Hk as [Hk|[Hk|[Hk|[Hk|[Hk|[Hk|[]]]]]]];
        injection Hk as <- <- <-; try contradiction.
      * rewrite (accepted_of_coerced c _ _ ev z h t dia sys sp Hpay) by float_field Hz.
        destruct (in_range z h t dia sys sp) eqn:E; [|reflexivity].
        apply in_range_spec in E. lia.
      * rewrite (accepted_of_coerced c _ _ ev p z t dia sys sp Hpay) by float_field Hz.
        destruct (in_range p z t dia sys sp) eqn:E; [|reflexivity].
        apply in_range_spec in E. lia.
      * rewrite (accepted_of_coerced c _ _ ev p h t z sys sp Hpay) by float_field Hz.
        destruct (in_range p h t z sys sp) eqn:E; [|reflexivity].
        apply in_range_spec in E. lia.
      * rewrite (accepted_of_coerced c _ _ ev p h t dia z sp Hpay) by float_field Hz.
        destruct (in_range p h t dia z sp) eqn:E; [|reflexivity].
        apply in_range_spec in E. lia.
      * rewrite (accepted_of_coerced c _ _ ev p h t dia sys z Hpay) by float_field Hz.
        destruct (in_range p h t dia sys z) eqn:E; [|reflexivity].
        apply in_range_spec in E. lia.
    + rewrite (process_payload _ _ _ Hpay), validate_coercion_fails; [reflexivity|].
      left. exists k, (PyFloat f), e. split; [|split; [apply lookup_insert_eq | exact Hz]].
      unfold intervals in Hk. cbn [In] in Hk.
      destruct Hk as [Hk|[Hk|[Hk|[Hk|[Hk|[Hk|[]]]]]]];
        injection Hk as <- <- <-; try contradiction; cbn; auto 10.
Qed.

(** A heart rate of 220.9 is accepted, as 220. *)
Lemma heart_rate_220_9_accepted :
  ∃ row, process (py := Examples.python) Examples.clock Examples.heart_rate_220_9 = Ok [row]
         ∧ row !! "heart_rate" = Some (PyInt 220).
Proof.
  set (py := Examples.python).
  assert (Hk : In ("heart_rate", (30, 220)) intervals) by (cbn; auto).
  assert (Hne : "heart_rate" ≠ "temperature") by discriminate.
  assert (Hval : valid_payload Examples.end_to_end_object)
    by (split; [eexists; reflexivity | vm_compute; reflexivity]).
  assert (Hpay : payload Examples.heart_rate_220_9
                 = Ok (PyDict (<["heart_rate" := PyFloat (Float.of_decimal false 2209 (-1))]>
                                 Examples.end_to_end_object)))
    by (vm_compute; reflexivity).
  pose proof (float_in_integer_field Examples.clock _ _ _ _ _ _ Hk Hne Hval Hpay) as H.
  change (truncates_into 30 220 (Float.of_decimal false 2209 (-1))) with true in H.
  destruct H as (z & row & Hz & _ & Hrow & Hrow_k).
  vm_compute in Hz. injection Hz as <-.
  exists row. split; assumption.
Defined.

(** ** The rows and the schema of the table *)

(** The schema string of the pipeline parses, and every row the validator
    yields fits it: the row has the eight columns of the schema and no
    other, an [int] in each [INTEGER] column and a [float] in the [FLOAT]
    column. *)
Theorem rows_fit_the_schema {py : Interpreter} (c : Timestamp.clock) (message_bytes : list Byte.byte) :
  ∃ fields rows,
    bigquery_tools.get_table_schema_from_string streamingpipeline.BQ_SCHEMA = Ok fields
    ∧ process c message_bytes = Ok rows
    ∧ Forall (fits_schema fields) rows.
Proof.
  eexists. eexists. split; [vm_compute; reflexivity|].
  rewrite process_rows. split; [reflexivity|].
  destruct (payload message_bytes) as [v|e]; cbn -[validate]; [|constructor].
  destruct (validate_shape v)
    as [Hnone | (ev & p & h & t & dia & sys & sp & _ & Hone)].
  - rewrite Hnone. constructor.
  - rewrite Hone. constructor; [|constructor].
    split; [|reflexivity].
    unfold vitals_record. rewrite !dom_insert_L, dom_empty_L.
    cbn [map fst list_to_set]. set_solver.
Qed.

(** ** Start-up of the pipeline and of the generator *)

(** The pipeline starts exactly when both settings are set and not empty,
    with the two values as they are set; otherwise the module exits. *)
Theorem load_module_starts_iff (env : environ) (subscription table : string) :
  (streamingpipeline.load_module env = Ok (subscription, table)
   ↔ env !! "PUBSUB_SUBSCRIPTION" = Some subscription
     ∧ env !! "BIGQUERY_TABLE" = Some table
     ∧ subscription ≠ "" ∧ table ≠ "")
  ∧ (∀ e, streamingpipeline.load_module env = Raise e -> is_Exception e = false).
Proof.
  unfold streamingpipeline.load_module, getenv.
  destruct (env !! "PUBSUB_SUBSCRIPTION") as [[|a s]|];
    destruct (env !! "BIGQUERY_TABLE") as [[|b t]|]; cbn;
    (split; [split; [intros [= <- <-] | intros (H1 & H2 & H3 & H4)] | intros e [= <-]]);
    try discriminate; try contradiction; try reflexivity;
    try (injection H1 as <-; injection H2 as <-; first [contradiction | reflexivity]).
  repeat split; discriminate.
Qed.

Lemma int_of_str_raises {py : Interpreter} (s : string) (e : exn) :
  Text.int_of_str s = Raise e -> e = ValueError.
Proof.
  unfold Text.int_of_str.
  repeat match goal with
         | |- context [match ?x with _ => _ end] => destruct x
         end; intros [= <-]; reflexivity.
Qed.

Lemma float_of_str_raises (s : string) (e : exn) :
  Text.float_of_str s = Raise e -> e = ValueError.
Proof.
  unfold Text.float_of_str.
  repeat match goal with
         | |- context [match ?x with _ => _ end] => destruct x
         end; intros [= <-]; reflexivity.
Qed.

(** [_get_env_int]: the default when the variable is unset or empty, the
    integer it spells otherwise, and when it spells none, [SystemExit] with
    the name and the value of the variable; no [ValueError] leaves it. *)
Theorem get_env_int_outcome {py : Interpreter} (env : environ) (name : string) (default : Z) :
  match env !! name with
  | None | Some EmptyString => patient_vitals._get_env_int env name default = Ok default
  | Some val =>
      match Text.int_of_str val with
      | Ok z => patient_vitals._get_env_int env name default = Ok z
      | Raise _ =>
          patient_vitals._get_env_int env name default
          = Raise (SystemExit [Lit "Invalid int for "; Lit name; Lit "="; Repr val])
      end
  end.
Proof.
  unfold patient_vitals._get_env_int, patient_vitals.getenv_opt.
  destruct (env !! name) as [[|a s]|]; try reflexivity.
  cbn [String.eqb].
  destruct (Text.int_of_str (String a s)) as [z|e] eqn:H; [reflexivity|].
  apply int_of_str_raises in H as ->. reflexivity.
Qed.

(** [_get_env_float]: the default when the variable is unset or empty, the
    float it spells otherwise ([nan] and [inf] are floats), and when it
    spells none, [SystemExit] with the name and the value of the variable;
    no [ValueError] leaves it. *)
Theorem get_env_float_outcome (env : environ) (name : string) (default : spec_float) :
  match env !! name with
  | None | Some EmptyString => patient_vitals._get_env_float env name default = Ok default
  | Some val =>
      match Text.float_of_str val with
      | Ok f => patient_vitals._get_env_float env name default = Ok f
      | Raise _ =>
          patient_vitals._get_env_float env name default
          = Raise (SystemExit [Lit "Invalid float for "; Lit name; Lit "="; Repr val])
      end
  end.
Proof.
  unfold patient_vitals._get_env_float, patient_vitals.getenv_opt.
  destruct (env !! name) as [[|a s]|]; try reflexivity.
  cbn [String.eqb].
  destruct (Text.float_of_str (String a s)) as [z|e] eqn:H; [reflexivity|].
  apply float_of_str_raises in H as ->. reflexivity.
Qed.

(** ** The checks of [main] *)




Lemma member_In (x : string) (set : list string) :
  patient_vitals.member x set = true -> In x set.
Proof.
  unfold patient_vitals.member. rewrite existsb_exists.
  intros (y & Hy & Heq). apply String.eqb_eq in Heq as ->. exact Hy.
Qed.

(** The check of the error rate is the exact test of the interval from 0 to
    1; a NaN fails it. *)
Lemma error_rate_check_exact (r : spec_float) :
  Float.le (S754_zero false) r && Float.le r (Float.of_decimal false 10 (-1))
  = in_closed_interval 0 1 (PyFloat r).
Proof.
  unfold Float.le, in_closed_interval.
  change (Float.value (S754_zero false)) with (Some (Float.XFin 0 0)).
  change (Float.value (Float.of_decimal false 10 (-1)))
    with (Some (Float.XFin (1 * 2 ^ 52) (- 52))).
  destruct (Float.value r) as [x|]; [|reflexivity].
  unfold Float.xle. rewrite xcompare_scaled_r by lia. reflexivity.
Qed.

(** The settings [main] goes on with have passed its checks: a patient
    count above zero, an interval that is not at most zero, an error rate
    from 0 to 1, and a mode and a style of the two lists. *)
Theorem main_settings_are_checked {py : Interpreter} (env : environ) (s : patient_vitals.settings) :
  patient_vitals.main_settings env = Ok s ->
  0 < patient_vitals.patient_count s
  ∧ Float.le (patient_vitals.stream_interval s) (S754_zero false) = false
  ∧ in_closed_interval 0 1 (PyFloat (patient_vitals.error_rate s)) = true
  ∧ In (patient_vitals.error_mode s) patient_vitals.error_modes
  ∧ In (patient_vitals.missing_field_style s) patient_vitals.missing_field_styles.
Proof.
  unfold patient_vitals.main_settings.
  destruct (patient_vitals._get_env_int env "PATIENT_COUNT" 30) as [n|]; [|discriminate].
  destruct (Text.float_of_str _) as [interval|]; [|discriminate].
  destruct (patient_vitals._get_env_float env "ERROR_RATE" _) as [rate|]; [|discriminate].
  cbn -[patient_vitals.member Float.le Float.of_decimal patient_vitals.lower
        patient_vitals.strip patient_vitals.error_modes
        patient_vitals.missing_field_styles].
  destruct (Z.leb_spec n 0); [discriminate|].
  destruct (Float.le interval (S754_zero false)) eqn:Hi; [discriminate|].
  rewrite error_rate_check_exact.
  destruct (in_closed_interval 0 1 (PyFloat rate)) eqn:Hr; [|discriminate].
  cbn [negb].
  destruct (patient_vitals.member _ patient_vitals.error_modes) eqn:Hm; [|discriminate].
  destruct (patient_vitals.member _ patient_vitals.missing_field_styles) eqn:Hs;
    [|discriminate].
  cbn [negb]. intros [= <-]. cbn [patient_vitals.patient_count
    patient_vitals.stream_interval patient_vitals.error_rate
    patient_vitals.error_mode patient_vitals.missing_field_style].
  repeat split; first [lia | exact Hi | exact Hr | apply member_In; assumption].
Qed.

(** With nothing set, [main] goes on with the defaults. *)
Lemma main_defaults :
  patient_vitals.main_settings (py := Examples.python) ∅
  = Ok {| patient_vitals.patient_count := 30;
          patient_vitals.stream_interval := Float.of_decimal false 1 0;
          patient_vitals.error_rate := Float.of_decimal false 1 (-1);
          patient_vitals.error_mode := "mixed";
          patient_vitals.missing_field_style := "delete" |}
  ∧ 0 < 30
  ∧ In "mixed" patient_vitals.error_modes.
Proof.
  set (py := Examples.python).
  assert (H : patient_vitals.main_settings ∅
              = Ok {| patient_vitals.patient_count := 30;
                      patient_vitals.stream_interval := Float.of_decimal false 1 0;
                      patient_vitals.error_rate := Float.of_decimal false 1 (-1);
                      patient_vitals.error_mode := "mixed";
                      patient_vitals.missing_field_style := "delete" |})
    by (vm_compute; reflexivity).
  split; [exact H|].
  destruct (main_settings_are_checked _ _ H) as (Hn & _ & _ & Hm & _).
  split; [exact Hn | exact Hm].
Defined.



(** ** The topic of the generator *)

Lemma str_prefix_app (k s : string) : String.prefix k (k ++ s) = true.
Proof.
  induction k as [|c k IH]; [destruct s; reflexivity|].
  change (String.prefix (String c k) (String c (k ++ s)) = true).
  cbn [String.prefix]. destruct (ascii_dec c c); [exact IH | contradiction].
Qed.

Lemma is_infix_app (k a b : string) : Builtins.is_infix k (a ++ k ++ b) = true.
Proof.
  induction a as [|c a IH].
  - change (Builtins.is_infix k (k ++ b) = true).
    destruct (k ++ b) eqn:E; cbn [Builtins.is_infix];
      rewrite <- E, str_prefix_app; reflexivity.
  - change (Builtins.is_infix k (String c (a ++ k ++ b)) = true).
    cbn [Builtins.is_infix]. rewrite IH. apply orb_true_r.
Qed.

(** Whatever [resolve_topic_path] returns starts with [projects/] and has
    [/topics/] in it, also when it is put together from the project and the
    short name of the topic. *)
Theorem resolved_topic_is_a_path (env : environ) (p : string) :
  patient_vitals.resolve_topic_path env = Ok p ->
  String.prefix "projects/" p = true ∧ Builtins.is_infix "/topics/" p = true.
Proof.
  unfold patient_vitals.resolve_topic_path.
  set (project_id := patient_vitals.getenv_or env "PROJECT_ID" _).
  set (topic_id := patient_vitals.getenv_or env "TOPIC_ID" _).
  set (full_topic := patient_vitals.getenv_or env "PUBSUB_TOPIC_FULL" _).
  destruct (patient_vitals.is_topic_path topic_id) eqn:Ht.
  { intros [= <-]. apply andb_true_iff, Ht. }
  destruct (patient_vitals.is_topic_path full_topic) eqn:Hf.
  { intros [= <-]. apply andb_true_iff, Hf. }
  destruct (negb _ || negb _); [discriminate|].
  intros [= <-]. unfold patient_vitals.topic_path. split.
  - apply (str_prefix_app "projects/").
  - exact (is_infix_app "/topics/" ("projects/" ++ project_id) topic_id).
Qed.

(** The topic named by its parts resolves to the path of the two. *)
Lemma topic_by_parts_resolved :
  patient_vitals.resolve_topic_path Examples.topic_by_parts
  = Ok "projects/demo/topics/vitals"
  ∧ Builtins.is_infix "/topics/" "projects/demo/topics/vitals" = true.
Proof.
  assert (H : patient_vitals.resolve_topic_path Examples.topic_by_parts
              = Ok "projects/demo/topics/vitals") by (vm_compute; reflexivity).
  split; [exact H|].
  exact (proj2 (resolved_topic_is_a_path _ _ H)).
Defined.

(** Once [TOPIC_ID] is set and not empty, [PUBSUB_TOPIC] is not looked at:
    whatever it holds, a full path too, the outcome is the same. *)
Theorem topic_id_hides_pubsub_topic (env : environ) (topic_id v : string) :
  env !! "TOPIC_ID" = Some topic_id ->
  topic_id ≠ "" ->
  patient_vitals.resolve_topic_path (<["PUBSUB_TOPIC" := v]> env)
  = patient_vitals.resolve_topic_path env.
Proof.
  intros Ht Hne.
  assert (Htruthy : Builtins.truthy topic_id = true)
    by (destruct topic_id; [contradiction | reflexivity]).
  assert (Hor : ∀ rest, patient_vitals.or_else topic_id rest = topic_id)
    by (intros rest; unfold patient_vitals.or_else; rewrite Htruthy; reflexivity).
  unfold patient_vitals.resolve_topic_path, patient_vitals.getenv_or,
    patient_vitals.getenv_opt.
  rewrite (lookup_insert_ne env "PUBSUB_TOPIC" "TOPIC_ID"),
    (lookup_insert_ne env "PUBSUB_TOPIC" "PROJECT_ID"),
    (lookup_insert_ne env "PUBSUB_TOPIC" "GCP_PROJECT"),
    (lookup_insert_ne env "PUBSUB_TOPIC" "PUBSUB_TOPIC_FULL") by discriminate.
  rewrite Ht, !Hor. reflexivity.
Qed.

(** With the topic named by its parts, a full path in [PUBSUB_TOPIC] is not
    used. *)
Lemma full_path_in_pubsub_topic_is_not_used :
  patient_vitals.resolve_topic_path
    (<["PUBSUB_TOPIC" := "projects/other/topics/alarms"]> Examples.topic_by_parts)
  = Ok "projects/demo/topics/vitals".
Proof.
  assert (Ht : Examples.topic_by_parts !! "TOPIC_ID" = Some "vitals")
    by (vm_compute; reflexivity).
  assert (Hne : "vitals" ≠ "") by discriminate.
  rewrite (topic_id_hides_pubsub_topic Examples.topic_by_parts "vitals"
             "projects/other/topics/alarms" Ht Hne).
  vm_compute. reflexivity.
Defined.

(** ** What [inject_error] changes *)

Lemma choice_total {A : Type} (seq : list A) (st : random.state) :
  seq ≠ [] ->
  ∃ x, random.choice seq st
       = Ok (x, {| random.draws := random.draws st;
                   random.drawn := S (random.drawn st) |})
       ∧ In x seq.
Proof.
  intros Hne. unfold random.choice.
  destruct (seq !! _) as [x|] eqn:Hx.
  - exists x. split; [reflexivity|].
    apply list_elem_of_In. eapply list_elem_of_lookup_2, Hx.
  - exfalso. apply lookup_ge_None in Hx.
    assert (length seq ≠ 0)%nat by (destruct seq; [contradiction | discriminate]).
    pose proof (Nat.mod_upper_bound (random.draws st (random.drawn st)) (length seq)).
    lia.
Qed.

(** [inject_error] never raises; the record it returns differs from the one
    it is given in one required field at most (every other key, required or
    not, keeps its value or its absence); and it draws at most two random
    choices. *)
Theorem inject_error_changes_one_field (record : pydict)
    (error_mode missing_field_style : string) (st : random.state) :
  ∃ record' st' field,
    patient_vitals.inject_error record error_mode missing_field_style st
    = Ok (record', st')
    ∧ In field patient_vitals.required_fields
    ∧ (∀ k, k ≠ field -> record' !! k = record !! k)
    ∧ random.draws st' = random.draws st
    ∧ (random.drawn st <= random.drawn st' <= random.drawn st + 2)%nat.
Proof.
  assert (Hfixed : ∀ mode st0,
    ∃ record' st' field,
      (if String.eqb mode "missing_field" then
         '(field, st) ← random.choice patient_vitals.required_fields st0;
         if String.eqb missing_field_style "delete"
         then Ok (delete field record, st)
         else Ok (<[field := PyNone]> record, st)
       else if String.eqb mode "null_field" then
         '(field, st) ← random.choice patient_vitals.required_fields st0;
         Ok (<[field := PyNone]> record, st)
       else if String.eqb mode "negative_value" then
         Ok (<["heart_rate" := PyInt (-1)]> record, st0)
       else if String.eqb mode "out_of_range" then
         Ok (<["spo2" := PyInt 150]> record, st0)
       else if String.eqb mode "bad_type" then
         Ok (<["bp_systolic" := PyStr "one-sixty"]> record, st0)
       else Ok (record, st0)) = Ok (record', st')
      ∧ In field patient_vitals.required_fields
      ∧ (∀ k, k ≠ field -> record' !! k = record !! k)
      ∧ random.draws st' = random.draws st0
      ∧ (random.drawn st0 <= random.drawn st' <= random.drawn st0 + 1)%nat).
  { intros mode st0.
    destruct (choice_total patient_vitals.required_fields st0) as (f & Hc & Hf);
      [discriminate|].
    destruct (String.eqb mode "missing_field").
    { rewrite Hc. cbn [mbind result_bind Py.bind].
      destruct (String.eqb missing_field_style "delete").
      - eexists _, _, f. split; [reflexivity|]. split; [exact Hf|].
        split; [intros k Hk; apply lookup_delete_ne; congruence|].
        cbn. split; [reflexivity | lia].
      - eexists _, _, f. split; [reflexivity|]. split; [exact Hf|].
        split; [intros k Hk; apply lookup_insert_ne; congruence|].
        cbn. split; [reflexivity | lia]. }
    destruct (String.eqb mode "null_field").
    { rewrite Hc. cbn [mbind result_bind Py.bind].
      eexists _, _, f. split; [reflexivity|]. split; [exact Hf|].
      split; [intros k Hk; apply lookup_insert_ne; congruence|].
      cbn. split; [reflexivity | lia]. }
    destruct (String.eqb mode "negative_value").
    { eexists _, _, "heart_rate". split; [reflexivity|]. split; [cbn; auto 10|].
      split; [intros k Hk; apply lookup_insert_ne; congruence|].
      split; [reflexivity | lia]. }
    destruct (String.eqb mode "out_of_range").
    { eexists _, _, "spo2". split; [reflexivity|]. split; [cbn; auto 10|].
      split; [intros k Hk; apply lookup_insert_ne; congruence|].
      split; [reflexivity | lia]. }
    destruct (String.eqb mode "bad_type").
    { eexists _, _, "bp_systolic". split; [reflexivity|]. split; [cbn; auto 10|].
      split; [intros k Hk; apply lookup_insert_ne; congruence|].
      split; [reflexivity | lia]. }
    eexists _, _, "patient_id". split; [reflexivity|]. split; [cbn; auto 10|].
    split; [reflexivity|]. split; [reflexivity | lia]. }
  unfold patient_vitals.inject_error.
  destruct (String.eqb error_mode "none").
  { eexists _, _, "patient_id". split; [reflexivity|]. split; [cbn; auto 10|].
    split; [reflexivity|]. split; [reflexivity | lia]. }
  destruct (String.eqb error_mode "mixed").
  - destruct (choice_total patient_vitals.modes st) as (mode & Hc & _);
      [discriminate|].
    rewrite Hc. cbn [mbind result_bind Py.bind].
    destruct (Hfixed mode {| random.draws := random.draws st;
                             random.drawn := S (random.drawn st) |})
      as (record' & st' & field & Heq & Hf & Hk & Hd & Hn).
    exists record', st', field. split; [exact Heq|]. split; [exact Hf|].
    split; [exact Hk|]. cbn in Hd, Hn. split; [exact Hd | lia].
  - cbn [mbind result_bind Py.bind].
    destruct (Hfixed error_mode st) as (record' & st' & field & Heq & Hf & Hk & Hd & Hn).
    exists record', st', field. split; [exact Heq|]. split; [exact Hf|].
    split; [exact Hk|]. split; [exact Hd | lia].
Qed.

(** ** Flagged but not changed *)

(** In the error mode [none] the generator still flags the payloads its
    error rate picks, but changes nothing in them: such a payload, when it
    was valid, is accepted by the validator, and no random choice is
    drawn. *)
Theorem flagged_payload_of_mode_none_is_accepted {py : Interpreter} (c : Timestamp.clock)
    (message_bytes : list Byte.byte) (record published : pydict) (style : string)
    (st st' : random.state) :
  valid_payload record ->
  patient_vitals.with_injected_error record "none" style st = Ok (published, st') ->
  payload message_bytes = Ok (PyDict published) ->
  published = <["_is_error" := PyBool true]> record
  ∧ st' = st
  ∧ ∃ row, process c message_bytes = Ok [row]
           ∧ row !! "event_ts" = record !! "event_ts"
           ∧ row !! "_is_error" = None.
Proof.
  intros [[ev Hev] Hin] Hinj Hpay.
  unfold patient_vitals.with_injected_error, patient_vitals.inject_error in Hinj.
  cbn in Hinj. injection Hinj as <- <-.
  split; [reflexivity|]. split; [reflexivity|].
  rewrite (process_payload _ _ _ Hpay).
  rewrite validate_extra_key by (cbn; intuition discriminate).
  destruct (within_intervals_fields record Hin)
    as (p & h & t & dia & sys & sp & Hp & Hh & Ht & Hd & Hs & Ho & Hr).
  rewrite (validate_coerced _ record ev p h t dia sys sp) by assumption.
  rewrite Hr. eexists. split; [reflexivity|].
  rewrite Hev. split; reflexivity.
Qed.

(** The end-to-end payload, flagged in the mode [none], is accepted. *)
Lemma end_to_end_flagged_accepted :
  ∃ row, process (py := Examples.python) Examples.clock Examples.end_to_end_flagged = Ok [row].
Proof.
  set (py := Examples.python).
  assert (Hval : valid_payload Examples.end_to_end_object)
    by (split; [eexists; reflexivity | vm_compute; reflexivity]).
  assert (Hinj : patient_vitals.with_injected_error Examples.end_to_end_object
                   "none" "delete" (Examples.always 0)
                 = Ok (<["_is_error" := PyBool true]> Examples.end_to_end_object,
                       Examples.always 0))
    by reflexivity.
  assert (Hpay : payload Examples.end_to_end_flagged
                 = Ok (PyDict (<["_is_error" := PyBool true]> Examples.end_to_end_object)))
    by (vm_compute; reflexivity).
  destruct (flagged_payload_of_mode_none_is_accepted Examples.clock _ _ _ _ _ _
              Hval Hinj Hpay) as (_ & _ & row & Hrow & _).
  exists row. exact Hrow.
Defined.
